(** * Page-by-page listing in the fastly client

    A shallow embedding of the two pagination loops of package [fastly]:
    the service-authorization paginator of [service_authorization.go]
    ([HasNext], [Remaining], [GetNext]) and the recursive page walk of
    [waf.go] ([GetWAFRuleStatuses], [fetchWAFRuleStatusesPage]).

    Go's [int] is a 64-bit two's-complement integer, kept here as a [Z]
    with the wrap-around written out.  A [map[string]string] is a
    [gmap string string].  A method that mutates its receiver returns the
    receiver's new value; the HTTP client is threaded through every call
    and records the requests it was asked to send.  A Go panic is a result
    of its own, distinct from a returned [error]. *)

From Stdlib Require Import ZArith String Ascii DecimalString DecimalPos Lia.
From stdpp Require Import base gmap strings list.

Local Open Scope Z_scope.

(** ** Go's [int] on a 64-bit platform *)

Module GoInt.

Definition minInt : Z := - 2 ^ 63.
Definition maxInt : Z := 2 ^ 63 - 1.

Definition in_range (z : Z) : Prop := minInt <= z <= maxInt.

(** The value a 64-bit register holds after an operation whose exact
    result is [z]. *)
Definition wrap (z : Z) : Z := (z + 2 ^ 63) mod 2 ^ 64 - 2 ^ 63.

Definition add (a b : Z) : Z := wrap (a + b).
Definition sub (a b : Z) : Z := wrap (a - b).
Definition neg (a : Z) : Z := wrap (- a).

End GoInt.

(** ** Package [strconv]: [Itoa] and [Atoi] in base 10 *)

Module strconv.

Inductive NumError := ErrSyntax | ErrRange.

(** [strconv.Itoa]: the shortest decimal numeral, with a leading minus sign
    for a negative number. *)
Definition Itoa (i : Z) : string := NilZero.string_of_int (Z.to_int i).

Definition maxUint64 : Z := 2 ^ 64 - 1.

Definition digit (c : ascii) : option Z :=
  let n := Z.of_N (N_of_ascii c) in
  if (48 <=? n) && (n <=? 57) then Some (n - 48) else None.

(** The digit loop of [strconv.ParseUint] for base 10 and 64 bits: the scan
    stops at the first byte that is not a digit (value 0, [ErrSyntax]) or at
    the first digit that overflows 64 bits (value [maxUint64], [ErrRange]),
    whichever comes first. *)
Fixpoint ParseUint_loop (s : string) (n : Z) : Z * option NumError :=
  match s with
  | EmptyString => (n, None)
  | String c s' =>
      match digit c with
      | None => (0, Some ErrSyntax)
      | Some d =>
          if maxUint64 / 10 + 1 <=? n then (maxUint64, Some ErrRange)
          else
            let n1 := n * 10 + d in
            if maxUint64 <? n1 then (maxUint64, Some ErrRange)
            else ParseUint_loop s' n1
      end
  end.

Definition ParseUint (s : string) : Z * option NumError :=
  match s with
  | EmptyString => (0, Some ErrSyntax)
  | _ => ParseUint_loop s 0
  end.

(** [strconv.ParseInt(s, 10, 0)]: an optional sign, then [ParseUint]; a
    magnitude that does not fit is clamped and reported as [ErrRange]. *)
Definition ParseInt (s : string) : Z * option NumError :=
  match s with
  | EmptyString => (0, Some ErrSyntax)
  | String c s' =>
      let neg := Ascii.eqb c "-" in
      let s1 := if Ascii.eqb c "+" || neg then s' else s in
      let '(un, err) := ParseUint s1 in
      match err with
      | Some ErrSyntax => (0, err)
      | _ =>
          let cutoff := 2 ^ 63 in
          if negb neg && (cutoff <=? un) then (cutoff - 1, Some ErrRange)
          else if neg && (cutoff <? un) then (- cutoff, Some ErrRange)
          else
            let n := GoInt.wrap un in
            (if neg then GoInt.neg n else n, None)
      end
  end.

(** [strconv.Atoi]: the value is returned together with the error, so a
    caller that drops the error still receives 0 (syntax) or the clamped
    bound (range). *)
Definition Atoi (s : string) : Z * option NumError := ParseInt s.

End strconv.

(** ** Package [net/url], as far as the paginator uses it

    [url.Parse] and the [Query] method of [URL] belong to Go's standard
    library.  The paginator only needs to know whether a link parses and which values its
    query string gives to a key, so both are an interface here and every
    statement below holds for all of its implementations. *)

Class NetURL := {
  URL : Type;
  (** [url.Parse]: [None] stands for the result [(nil, err)]. *)
  url_Parse : string -> option URL;
  (** [u.Query()]: the values of each key, in order of appearance. *)
  URL_Query : URL -> gmap string (list string)
}.

(** ** Errors, panics and results *)

Inductive error :=
| ErrMissingService
| ErrMissingWAFID
| Errorf (msg : string)
| CollaboratorError (msg : string).

Inductive panic := NilDereference | IndexOutOfRange.

Inductive outcome (A : Type) :=
| Returns (a : A)
| Panics (why : panic).
Arguments Returns {A} a.
Arguments Panics {A} why.

(** ** Data of the two files *)

Record SAUser := { SAUser_ID : string }.
Record SAService := { SAService_ID : string }.

Record ServiceAuthorization := {
  SA_ID : string;
  SA_Permission : string;
  SA_CreatedAt : option string;
  SA_UpdatedAt : option string;
  SA_DeletedAt : option string;
  SA_User : option SAUser;
  SA_Service : option SAService
}.

Record ListServiceAuthorizationsInput := {
  PerPage : Z;
  Page : Z
}.

(** [paginationInfo] of [waf.go]. *)
Record paginationInfo := {
  First : string;
  Last : string;
  Next : string
}.

Definition paginationInfo_zero : paginationInfo :=
  {| First := ""; Last := ""; Next := "" |}.

(** The declaration of [infoResponse] is not part of these sources; the
    paginator reads its [Links] field only. *)
Record infoResponse := { Links : paginationInfo }.

Record ruleStatusRuleRelation := { rule_id : Z }.
Record ruleStatusWAFRelation := { waf_id : string }.

Record receivedWAFRuleStatus := {
  received_id : string;
  received_rule : option ruleStatusRuleRelation;
  received_waf : option ruleStatusWAFRelation;
  received_status : string
}.

Record WAFRuleStatus := {
  RuleID : Z;
  WAFID : string;
  StatusID : string;
  Status : string
}.

(** A value of type [interface{}] as [jsonapi.UnmarshalManyPayload] returns
    it: a pointer to one of the two record types, or a value of some other
    dynamic type, of which only the name matters. *)
Inductive iface :=
| IServiceAuthorization (sa : ServiceAuthorization)
| IReceivedWAFRuleStatus (r : receivedWAFRuleStatus)
| IOther (T : string).

(** What [%T] prints. *)
Definition typeName (v : iface) : string :=
  match v with
  | IServiceAuthorization _ => "*fastly.ServiceAuthorization"
  | IReceivedWAFRuleStatus _ => "*fastly.receivedWAFRuleStatus"
  | IOther T => T
  end.

(** ** The HTTP client

    [Client.Get] is defined outside these sources.  A response body is kept
    as what each reader of the program obtains from it: [getResponseInfo]
    (also outside these sources), [ioutil.ReadAll], [json.Unmarshal] into a
    [linksResponse] (whose error [getPages] drops, so only the decoded links
    count), and [jsonapi.UnmarshalManyPayload] at either element type. *)

Record Body := {
  body_info : error + infoResponse;
  body_authorizations : error + list iface;
  body_readAll : option error;
  body_links : paginationInfo;
  body_statuses : error + list iface
}.

Record RequestOptions := {
  Params : gmap string string;
  Headers : gmap string string
}.

Record Request := {
  req_path : string;
  req_options : option RequestOptions
}.

(** The client answers a GET from the requests sent so far and the new
    one, and keeps the new one in [sent]. *)
Record Client := {
  transport : list Request -> Request -> error + Body;
  sent : list Request
}.

Definition Client_Get (c : Client) (path : string) (ro : option RequestOptions)
  : Client * (error + Body) :=
  let r := {| req_path := path; req_options := ro |} in
  ({| transport := transport c; sent := sent c ++ [r] |}, transport c (sent c) r).

(** ** [service_authorization.go]: the paginator *)

(** The [client] field is the [Client] threaded through [GetNext];
    [options] is a pointer and may be nil. *)
Record ListServiceAuthorizationsPaginator := {
  consumed : bool;
  CurrentPage : Z;
  NextPage : Z;
  LastPage : Z;
  options : option ListServiceAuthorizationsInput
}.

Definition set_CurrentPage (v : Z) (p : ListServiceAuthorizationsPaginator) :=
  {| consumed := consumed p; CurrentPage := v; NextPage := NextPage p;
     LastPage := LastPage p; options := options p |}.

Definition set_NextPage (v : Z) (p : ListServiceAuthorizationsPaginator) :=
  {| consumed := consumed p; CurrentPage := CurrentPage p; NextPage := v;
     LastPage := LastPage p; options := options p |}.

Definition set_LastPage (v : Z) (p : ListServiceAuthorizationsPaginator) :=
  {| consumed := consumed p; CurrentPage := CurrentPage p; NextPage := NextPage p;
     LastPage := v; options := options p |}.

Definition set_consumed (v : bool) (p : ListServiceAuthorizationsPaginator) :=
  {| consumed := v; CurrentPage := CurrentPage p; NextPage := NextPage p;
     LastPage := LastPage p; options := options p |}.

Definition Remaining (p : ListServiceAuthorizationsPaginator) : Z :=
  if LastPage p =? 0 then 0
  else GoInt.sub (LastPage p) (CurrentPage p).

Definition HasNext (p : ListServiceAuthorizationsPaginator) : bool :=
  negb (consumed p) || negb (Remaining p =? 0).

Definition NewListServiceAuthorizationsPaginator
  (i : option ListServiceAuthorizationsInput) : ListServiceAuthorizationsPaginator :=
  {| consumed := false; CurrentPage := 0; NextPage := 0; LastPage := 0;
     options := i |}.

Definition maxPerPage : Z := 100.

(** The loop that copies [data] into a slice of authorizations and stops at
    the first element of another dynamic type. *)
Fixpoint assertAuthorizations (data : list iface)
  : error + list ServiceAuthorization :=
  match data with
  | [] => inr []
  | IServiceAuthorization typed :: rest =>
      match assertAuthorizations rest with
      | inr s => inr (typed :: s)
      | inl e => inl e
      end
  | v :: _ => inl (Errorf ("unexpected response type: " +:+ typeName v))
  end.

Section Paginator.

Context `{NetURL}.

(** The three statements applied to the [next] and to the [last] link:
    [url.Parse] with its error dropped, [Query], and [Atoi] of the first
    value of [page[number]] with its error dropped. *)
Definition linkPageNumber (l : string) : outcome Z :=
  match url_Parse l with
  | None => Panics NilDereference
  | Some u =>
      match URL_Query u !! "page[number]"%string with
      | Some (v :: _) => Returns (fst (strconv.Atoi v))
      | _ => Panics IndexOutOfRange
      end
  end.

(** One [if l := ...; l != ""] block: a link that is present stores its
    page number in a field of the paginator, an absent one changes
    nothing. *)
Definition followLink (l : string)
  (store : Z -> ListServiceAuthorizationsPaginator -> ListServiceAuthorizationsPaginator)
  (p : ListServiceAuthorizationsPaginator)
  : outcome ListServiceAuthorizationsPaginator :=
  if String.eqb l "" then Returns p
  else match linkPageNumber l with
       | Returns n => Returns (store n p)
       | Panics why => Panics why
       end.

Definition pageRequestOptions (perPage page : Z) : RequestOptions :=
  {| Params := <["page[size]"%string := strconv.Itoa perPage]>
                 (<["page[number]"%string := strconv.Itoa page]> ∅);
     Headers := <["Accept"%string := "application/vnd.api+json"%string]> ∅ |}.

Definition listServiceAuthorizationsWithPage
  (c : Client) (i : option ListServiceAuthorizationsInput)
  (p : ListServiceAuthorizationsPaginator)
  : Client * ListServiceAuthorizationsPaginator
    * outcome (list ServiceAuthorization * option error) :=
  match i with
  | None => (c, p, Panics NilDereference)
  | Some i =>
      let perPage := if PerPage i <=? 0 then maxPerPage else PerPage i in
      let p :=
        if (Page i <=? 0) && (CurrentPage p =? 0) then set_CurrentPage 1 p
        else if negb (consumed p) then set_CurrentPage (Page i) p
        else set_CurrentPage (GoInt.add (CurrentPage p) 1) p in
      let requestOptions := pageRequestOptions perPage (CurrentPage p) in
      let '(c, resp) :=
        Client_Get c "/service-authorizations" (Some requestOptions) in
      match resp with
      | inl err => (c, p, Returns ([], Some err))
      | inr body =>
      match body_info body with
      | inl err => (c, p, Returns ([], Some err))
      | inr info =>
      match body_authorizations body with
      | inl err => (c, p, Returns ([], Some err))
      | inr data =>
      match assertAuthorizations data with
      | inl err => (c, p, Returns ([], Some err))
      | inr s =>
      match followLink (Next (Links info)) set_NextPage p with
      | Panics why => (c, p, Panics why)
      | Returns p =>
      match followLink (Last (Links info)) set_LastPage p with
      | Panics why => (c, p, Panics why)
      | Returns p => (c, set_consumed true p, Returns (s, None))
      end end end end end end
  end.

Definition GetNext (c : Client) (p : ListServiceAuthorizationsPaginator) :=
  listServiceAuthorizationsWithPage c (options p) p.

End Paginator.

(** ** [waf.go]: rule statuses, page after page *)

Record GetWAFRuleStatusesFilters := {
  Filter_Status : string;
  Filter_Accuracy : Z;
  Filter_Maturity : Z;
  Filter_Message : string;
  Filter_Revision : Z;
  Filter_RuleID : string;
  Filter_TagID : Z;
  Filter_TagName : string;
  Filter_Version : string;
  Filter_Tags : list Z;
  Filter_MaxResults : Z;
  Filter_Page : Z
}.

Record GetWAFRuleStatusesInput := {
  Service : string;
  WAF : string;
  Filters : GetWAFRuleStatusesFilters
}.

Record GetWAFRuleStatusesResponse := {
  Rules : list WAFRuleStatus;
  Response_Links : paginationInfo
}.

(** Reading [received.rule.id] or [received.waf.id] through a nil pointer
    panics. *)
Definition simplify (received : receivedWAFRuleStatus) : outcome WAFRuleStatus :=
  match received_rule received with
  | None => Panics NilDereference
  | Some rule =>
      match received_waf received with
      | None => Panics NilDereference
      | Some waf =>
          Returns {| RuleID := rule_id rule; WAFID := waf_id waf;
                     StatusID := received_id received;
                     Status := received_status received |}
      end
  end.

(** The three cases of the [switch] in [formatFilters]: a zero value is
    not sent. *)
Definition filterString (key value : string) (result : gmap string string) :=
  if String.eqb value "" then result else <[key := value]> result.

Definition filterInt (key : string) (value : Z) (result : gmap string string) :=
  if value =? 0 then result else <[key := strconv.Itoa value]> result.

Definition filterInts (key : string) (values : list Z) (result : gmap string string) :=
  match values with
  | [] => result
  | _ => <[key := String.concat "," (map strconv.Itoa values)]> result
  end.

(** The keys of [pairings] are distinct, so the order in which Go walks the
    map does not show in the result. *)
Definition formatFilters (i : GetWAFRuleStatusesInput) : gmap string string :=
  let input := Filters i in
  filterInt "page[number]" (Filter_Page input)
    (filterInt "page[size]" (Filter_MaxResults input)
    (filterInts "include" (Filter_Tags input)
    (filterString "filter[rule][version]" (Filter_Version input)
    (filterString "filter[rule][tags][name]" (Filter_TagName input)
    (filterInt "filter[rule][tags]" (Filter_TagID input)
    (filterString "filter[rule][rule_id]" (Filter_RuleID input)
    (filterInt "filter[rule][revision]" (Filter_Revision input)
    (filterString "filter[rule][message]" (Filter_Message input)
    (filterInt "filter[rule][maturity]" (Filter_Maturity input)
    (filterInt "filter[rule][accuracy]" (Filter_Accuracy input)
    (filterString "filter[status]" (Filter_Status input) ∅))))))))))).

(** [getPages] hands back the links and a fresh reader over the bytes it
    read; the error of [json.Unmarshal] is dropped. *)
Definition getPages (body : Body) : error + paginationInfo * Body :=
  match body_readAll body with
  | Some err => inl err
  | None => inr (body_links body, body)
  end.

(** The [for] loop of [fetchWAFRuleStatusesPage]: rules are appended one by
    one, and those appended before a failure stay in the answer. *)
Fixpoint appendStatuses (data : list iface) (rules : list WAFRuleStatus)
  : list WAFRuleStatus * outcome (option error) :=
  match data with
  | [] => (rules, Returns None)
  | IReceivedWAFRuleStatus typed :: rest =>
      match simplify typed with
      | Returns r => appendStatuses rest (rules ++ [r])
      | Panics why => (rules, Panics why)
      end
  | _ :: _ => (rules, Returns (Some (Errorf "got back response of unexpected type")))
  end.

Definition set_Rules (rules : list WAFRuleStatus) (answer : GetWAFRuleStatusesResponse) :=
  {| Rules := rules; Response_Links := Response_Links answer |}.

(** The recursion follows [next] links for as long as the server hands them
    out, so it is bounded here by [fuel]: [None] means the bound was reached
    before the walk ended.  The result of the recursive call is dropped
    unless it is a panic. *)
Fixpoint fetchWAFRuleStatusesPage (fuel : nat) (c : Client)
  (answer : GetWAFRuleStatusesResponse) (path : string)
  (filters : option RequestOptions)
  : option (Client * GetWAFRuleStatusesResponse * outcome (option error)) :=
  match fuel with
  | O => None
  | S fuel =>
      let '(c, resp) := Client_Get c path filters in
      match resp with
      | inl err => Some (c, answer, Returns (Some err))
      | inr body =>
      match getPages body with
      | inl err => Some (c, answer, Returns (Some err))
      | inr (pages, body) =>
      match body_statuses body with
      | inl err => Some (c, answer, Returns (Some err))
      | inr data =>
      match appendStatuses data (Rules answer) with
      | (rules, Panics why) => Some (c, set_Rules rules answer, Panics why)
      | (rules, Returns (Some err)) =>
          Some (c, set_Rules rules answer, Returns (Some err))
      | (rules, Returns None) =>
          let answer := set_Rules rules answer in
          if String.eqb (Next pages) "" then Some (c, answer, Returns None)
          else
            match fetchWAFRuleStatusesPage fuel c answer (Next pages) filters with
            | None => None
            | Some (c, answer, Panics why) => Some (c, answer, Panics why)
            | Some (c, answer, Returns _) => Some (c, answer, Returns None)
            end
      end end end end
  end.

Definition statusesPath (i : GetWAFRuleStatusesInput) : string :=
  "/service/" +:+ Service i +:+ "/wafs/" +:+ WAF i +:+ "/rule_statuses".

Definition GetWAFRuleStatuses (fuel : nat) (c : Client) (i : GetWAFRuleStatusesInput)
  : option (Client * GetWAFRuleStatusesResponse * outcome (option error)) :=
  let statusResponse := {| Rules := []; Response_Links := paginationInfo_zero |} in
  if String.eqb (Service i) "" then
    Some (c, statusResponse, Returns (Some ErrMissingService))
  else if String.eqb (WAF i) "" then
    Some (c, statusResponse, Returns (Some ErrMissingWAFID))
  else
    let filters := Some {| Params := formatFilters i; Headers := ∅ |} in
    fetchWAFRuleStatusesPage fuel c statusResponse (statusesPath i) filters.

(** ** A reference implementation of the [net/url] interface

    It covers links of the shape [scheme://host/path?k=v&k=v#fragment] that
    carry no percent escapes and no [+]: the query is what lies between the
    first [?] and the [#], cut at every [&] and then at the first [=].  Of
    the ways [url.Parse] can fail it has one, a link that begins with a
    colon (a missing protocol scheme).  It serves to run the paginator on
    concrete links. *)

Module PlainURL.

(** [strings.Cut] at a single byte. *)
Fixpoint cut (sep : ascii) (s : string) : string * string :=
  match s with
  | EmptyString => (EmptyString, EmptyString)
  | String ch s' =>
      if Ascii.eqb ch sep then (EmptyString, s')
      else let '(before, after) := cut sep s' in (String ch before, after)
  end.

Fixpoint split (sep : ascii) (s : string) : list string :=
  match s with
  | EmptyString => [EmptyString]
  | String ch s' =>
      if Ascii.eqb ch sep then EmptyString :: split sep s'
      else match split sep s' with
           | w :: ws => String ch w :: ws
           | [] => [String ch EmptyString]
           end
  end.

Definition Parse (rawURL : string) : option string :=
  let u := fst (cut "#" rawURL) in
  match u with
  | String ":" _ => None
  | _ => Some (snd (cut "?" u))
  end.

Definition addPair (m : gmap string (list string)) (segment : string)
  : gmap string (list string) :=
  match segment with
  | EmptyString => m
  | _ =>
      let '(key, value) := cut "=" segment in
      <[key := default [] (m !! key) ++ [value]]> m
  end.

Definition Query (rawQuery : string) : gmap string (list string) :=
  foldl addPair ∅ (split "&" rawQuery).

#[export] Instance net_url : NetURL :=
  {| URL := string; url_Parse := Parse; URL_Query := Query |}.

End PlainURL.

(** ** What a call put on the wire *)

(** The value of a query parameter in the request sent last. *)
Definition emittedParam (key : string) (c : Client) : option string :=
  match last (sent c) with
  | Some r =>
      match req_options r with
      | Some ro => Params ro !! key
      | None => None
      end
  | None => None
  end.

Definition clientAfter {A B : Type} (r : Client * A * B) : Client := fst (fst r).
Definition paginatorAfter {A B : Type} (r : A * ListServiceAuthorizationsPaginator * B) := snd (fst r).
Definition resultOf {A B C : Type} (r : A * B * C) : C := snd r.

(** The page size and the page number a call works out before it sends
    anything. *)
Definition sizeFor (i : ListServiceAuthorizationsInput) : Z :=
  if PerPage i <=? 0 then maxPerPage else PerPage i.

Definition pageFor (i : ListServiceAuthorizationsInput)
  (p : ListServiceAuthorizationsPaginator) : Z :=
  if (Page i <=? 0) && (CurrentPage p =? 0) then 1
  else if negb (consumed p) then Page i
  else GoInt.add (CurrentPage p) 1.

Definition pageRequest (i : ListServiceAuthorizationsInput)
  (p : ListServiceAuthorizationsPaginator) : Request :=
  {| req_path := "/service-authorizations";
     req_options := Some (pageRequestOptions (sizeFor i) (pageFor i p)) |}.

(** The call on [p] with input [i] is answered by a body that both decoders
    accept: [info] holds its links and [s] its authorizations. *)
Definition responds (c : Client) (i : ListServiceAuthorizationsInput)
  (p : ListServiceAuthorizationsPaginator) (info : infoResponse)
  (s : list ServiceAuthorization) : Prop :=
  exists body data,
    transport c (sent c) (pageRequest i p) = inr body
    /\ body_info body = inr info
    /\ body_authorizations body = inr data
    /\ assertAuthorizations data = inr s.

Section Links.

Context `{NetURL}.

(** A link whose [page[number]] value is not a number. *)
Definition nonNumericPage (l : string) : Prop :=
  l <> EmptyString
  /\ exists u v vs,
       url_Parse l = Some u
       /\ URL_Query u !! "page[number]"%string = Some (v :: vs)
       /\ snd (strconv.Atoi v) = Some strconv.ErrSyntax.

(** A link that is absent, or that parses and carries a [page[number]]. *)
Definition harmless (l : string) : Prop :=
  l = EmptyString \/ exists n, linkPageNumber l = Returns n.

(** A link that does not parse. *)
Definition unparsable (l : string) : Prop :=
  l <> EmptyString /\ url_Parse l = None.

(** A link that parses and carries no [page[number]]. *)
Definition pageless (l : string) : Prop :=
  l <> EmptyString
  /\ exists u, url_Parse l = Some u
       /\ (URL_Query u !! "page[number]"%string = None
           \/ URL_Query u !! "page[number]"%string = Some []).

(** The paginators a program can hold: a new one, and what a call of
    [GetNext] leaves behind, whatever the client answered. *)
Inductive reachable : ListServiceAuthorizationsPaginator -> Prop :=
| reachable_new i : reachable (NewListServiceAuthorizationsPaginator i)
| reachable_next c p : reachable p -> reachable (paginatorAfter (GetNext c p)).

End Links.

(** ** Clients and bodies to run the code on *)

(** A client that answers its n-th request with the n-th entry of a script
    and with an error once the script is used up. *)
Definition scripted (script : list (error + Body)) : Client :=
  {| transport := fun before _ =>
       default (inl (CollaboratorError "no more responses"))
               (script !! length before);
     sent := [] |}.

Definition authorizationsBody (next last : string) : Body :=
  {| body_info := inr {| Links := {| First := ""; Last := last; Next := next |} |};
     body_authorizations := inr [];
     body_readAll := None;
     body_links := {| First := ""; Last := last; Next := next |};
     body_statuses := inr [] |}.

Definition page (n : string) : string :=
  "https://api.fastly.com/service-authorizations?page[number]=" +:+ n +:+ "&page[size]=1".

Definition unreachable : error + Body := inl (CollaboratorError "connection refused").

(** ** Walking the pages of rule statuses *)

(** The statuses a page holds when every element is a rule status with
    both relations present. *)
Fixpoint statusesOf (data : list iface) : option (list WAFRuleStatus) :=
  match data with
  | [] => Some []
  | IReceivedWAFRuleStatus typed :: rest =>
      match simplify typed, statusesOf rest with
      | Returns r, Some rs => Some (r :: rs)
      | _, _ => None
      end
  | _ :: _ => None
  end.

Definition getRequest (path : string) (filters : option RequestOptions) : Request :=
  {| req_path := path; req_options := filters |}.

Definition afterGet (c : Client) (path : string) (filters : option RequestOptions)
  : Client :=
  fst (Client_Get c path filters).

(** Fetching [path] fails in the transport, while the body is read, or in
    the decoder. *)
Inductive pageFails (c : Client) (path : string) (filters : option RequestOptions)
  (err : error) : Prop :=
| fails_transport :
    transport c (sent c) (getRequest path filters) = inl err ->
    pageFails c path filters err
| fails_read body :
    transport c (sent c) (getRequest path filters) = inr body ->
    body_readAll body = Some err ->
    pageFails c path filters err
| fails_decode body :
    transport c (sent c) (getRequest path filters) = inr body ->
    body_readAll body = None ->
    body_statuses body = inl err ->
    pageFails c path filters err.

(** Fetching [path] gives the statuses [rs] and the link [next]. *)
Definition pageGives (c : Client) (path : string) (filters : option RequestOptions)
  (rs : list WAFRuleStatus) (next : string) : Prop :=
  exists body data,
    transport c (sent c) (getRequest path filters) = inr body
    /\ body_readAll body = None
    /\ body_statuses body = inr data
    /\ statusesOf data = Some rs
    /\ Next (body_links body) = next.

(** [failsAfter filters n c path rules c' err]: starting at [path], [n]
    pages in a row are fetched and each links to the next, the fetch after
    them fails with [err]; [rules] are the statuses of the [n] pages and
    [c'] is the client after the failed request. *)
Inductive failsAfter (filters : option RequestOptions)
  : nat -> Client -> string -> list WAFRuleStatus -> Client -> error -> Prop :=
| failsAfter_now c path err :
    pageFails c path filters err ->
    failsAfter filters 0 c path [] (afterGet c path filters) err
| failsAfter_later n c path rs next rules c' err :
    pageGives c path filters rs next ->
    next <> EmptyString ->
    failsAfter filters n (afterGet c path filters) next rules c' err ->
    failsAfter filters (S n) c path (rs ++ rules) c' err.

Definition statusesFilters (i : GetWAFRuleStatusesInput) : option RequestOptions :=
  Some {| Params := formatFilters i; Headers := ∅ |}.

Definition ruleStatus (id : string) (rule : Z) : iface :=
  IReceivedWAFRuleStatus
    {| received_id := id; received_rule := Some {| rule_id := rule |};
       received_waf := Some {| waf_id := "waf" |}; received_status := "log" |}.

Definition statusesBody (data : list iface) (next : string) : Body :=
  {| body_info := inr {| Links := {| First := ""; Last := ""; Next := next |} |};
     body_authorizations := inr [];
     body_readAll := None;
     body_links := {| First := ""; Last := ""; Next := next |};
     body_statuses := inr data |}.

(** Three pages of authorizations, the last one being page 3. *)
Definition threePages : Client :=
  scripted [inr (authorizationsBody (page "2") (page "3"));
            inr (authorizationsBody (page "3") (page "3"));
            inr (authorizationsBody "" (page "3"))].

(** A first page that links on, then a [next] link whose page is not a
    number. *)
Definition garbledSecondPage : Client :=
  scripted [inr (authorizationsBody (page "2") (page "3"));
            inr (authorizationsBody (page "abc") (page "3"))].

(** Two pages of rule statuses, then the connection drops. *)
Definition droppingStatuses : Client :=
  scripted [inr (statusesBody [ruleStatus "a" 1] "/service/svc/wafs/waf/rule_statuses?page[number]=2");
            inr (statusesBody [ruleStatus "b" 2] "/service/svc/wafs/waf/rule_statuses?page[number]=3");
            unreachable].

Definition noFilters : GetWAFRuleStatusesFilters :=
  {| Filter_Status := ""; Filter_Accuracy := 0; Filter_Maturity := 0;
     Filter_Message := ""; Filter_Revision := 0; Filter_RuleID := "";
     Filter_TagID := 0; Filter_TagName := ""; Filter_Version := "";
     Filter_Tags := []; Filter_MaxResults := 0; Filter_Page := 0 |}.

Definition statusesInput : GetWAFRuleStatusesInput :=
  {| Service := "svc"; WAF := "waf"; Filters := noFilters |}.

Definition onPage2of5 : ListServiceAuthorizationsPaginator :=
  {| consumed := true; CurrentPage := 2; NextPage := 3; LastPage := 5;
     options := None |}.

Definition fromStart : ListServiceAuthorizationsInput := {| PerPage := 0; Page := 0 |}.
Definition fromPage5 : ListServiceAuthorizationsInput := {| PerPage := 25; Page := 5 |}.

(** The number a run of decimal digits denotes, after the digits already
    read as [acc]. *)
Fixpoint uintValue (d : Decimal.uint) (acc : Z) : Z :=
  match d with
  | Decimal.Nil => acc
  | Decimal.D0 l => uintValue l (acc * 10 + 0)
  | Decimal.D1 l => uintValue l (acc * 10 + 1)
  | Decimal.D2 l => uintValue l (acc * 10 + 2)
  | Decimal.D3 l => uintValue l (acc * 10 + 3)
  | Decimal.D4 l => uintValue l (acc * 10 + 4)
  | Decimal.D5 l => uintValue l (acc * 10 + 5)
  | Decimal.D6 l => uintValue l (acc * 10 + 6)
  | Decimal.D7 l => uintValue l (acc * 10 + 7)
  | Decimal.D8 l => uintValue l (acc * 10 + 8)
  | Decimal.D9 l => uintValue l (acc * 10 + 9)
  end.

(** ** Several calls in a row *)

(** The request for page [n] under input [i], and the page a new paginator
    starts from. *)
Definition pageRequestAt (i : ListServiceAuthorizationsInput) (n : Z) : Request :=
  {| req_path := "/service-authorizations";
     req_options := Some (pageRequestOptions (sizeFor i) n) |}.

Definition firstPage (i : ListServiceAuthorizationsInput) : Z :=
  if Page i <=? 0 then 1 else Page i.

Section Runs.

Context `{NetURL}.

(** [succeeds n c p c' p']: [n] calls of [GetNext] in a row, each of which
    returns without an error, lead from [c] and [p] to [c'] and [p']. *)
Inductive succeeds
  : nat -> Client -> ListServiceAuthorizationsPaginator
    -> Client -> ListServiceAuthorizationsPaginator -> Prop :=
| succeeds_none c p : succeeds 0 c p c p
| succeeds_next n c p c' p' s :
    resultOf (GetNext c p) = Returns (s, None) ->
    succeeds n (clientAfter (GetNext c p)) (paginatorAfter (GetNext c p)) c' p' ->
    succeeds (S n) c p c' p'.

(** A link that parses and whose [page[number]] has the value [v]. *)
Definition pageValue (l v : string) : Prop :=
  l <> EmptyString
  /\ exists u vs,
       url_Parse l = Some u
       /\ URL_Query u !! "page[number]"%string = Some (v :: vs).

End Runs.

(** ** The single-resource calls of [service_authorization.go]

    The error values these calls return, the client methods
    [PostJSONAPI], [PatchJSONAPI] and [Delete], and
    [jsonapi.UnmarshalPayload] are declared outside these sources; they are
    an interface here.  A method takes the client and returns it together
    with its answer, as [Client_Get] does. *)

Class Collaborators := {
  ErrMissingID : error;
  ErrMissingPermissions : error;
  ErrMissingServiceAuthorizationsService : error;
  ErrMissingServiceAuthorizationsUser : error;
  PostJSONAPI :
    forall A : Type, Client -> string -> A -> option RequestOptions
                     -> Client * (error + Body);
  PatchJSONAPI :
    forall A : Type, Client -> string -> A -> option RequestOptions
                     -> Client * (error + Body);
  Client_Delete : Client -> string -> option RequestOptions -> Client * (error + Body);
  UnmarshalPayload : Body -> error + ServiceAuthorization
}.

Record GetServiceAuthorizationInput := { Get_ID : string }.

Record CreateServiceAuthorizationInput := {
  Create_ID : string;
  Create_Permission : string;
  Create_Service : option SAService;
  Create_User : option SAUser
}.

Record UpdateServiceAuthorizationInput := {
  Update_ID : string;
  Update_Permissions : string
}.

Record DeleteServiceAuthorizationInput := { Delete_ID : string }.

(** The tail shared by the calls that decode one authorization. *)
Definition decodeAuthorization `{Collaborators} (r : Client * (error + Body))
  : Client * (option ServiceAuthorization * option error) :=
  let '(c, resp) := r in
  match resp with
  | inl err => (c, (None, Some err))
  | inr body =>
      match UnmarshalPayload body with
      | inl err => (c, (None, Some err))
      | inr sa => (c, (Some sa, None))
      end
  end.

Section SingleResource.

Context `{Collaborators}.

Definition GetServiceAuthorization (c : Client) (i : GetServiceAuthorizationInput)
  : Client * (option ServiceAuthorization * option error) :=
  if String.eqb (Get_ID i) "" then (c, (None, Some ErrMissingID))
  else
    let path := "/service-authorizations/" +:+ Get_ID i in
    decodeAuthorization (Client_Get c path None).

(** [i.Service == nil || i.Service.ID == ""], and the same for the user. *)
Definition noService (i : CreateServiceAuthorizationInput) : bool :=
  match Create_Service i with
  | None => true
  | Some service => String.eqb (SAService_ID service) ""
  end.

Definition noUser (i : CreateServiceAuthorizationInput) : bool :=
  match Create_User i with
  | None => true
  | Some user => String.eqb (SAUser_ID user) ""
  end.

Definition CreateServiceAuthorization (c : Client) (i : CreateServiceAuthorizationInput)
  : Client * (option ServiceAuthorization * option error) :=
  if noService i then (c, (None, Some ErrMissingServiceAuthorizationsService))
  else if noUser i then (c, (None, Some ErrMissingServiceAuthorizationsUser))
  else decodeAuthorization (PostJSONAPI _ c "/service-authorizations" i None).

Definition UpdateServiceAuthorization (c : Client) (i : UpdateServiceAuthorizationInput)
  : Client * (option ServiceAuthorization * option error) :=
  if String.eqb (Update_ID i) "" then (c, (None, Some ErrMissingID))
  else if String.eqb (Update_Permissions i) "" then (c, (None, Some ErrMissingPermissions))
  else
    let path := "/service-authorizations/" +:+ Update_ID i in
    decodeAuthorization (PatchJSONAPI _ c path i None).

Definition DeleteServiceAuthorization (c : Client) (i : DeleteServiceAuthorizationInput)
  : Client * option error :=
  if String.eqb (Delete_ID i) "" then (c, Some ErrMissingID)
  else
    let path := "/service-authorizations/" +:+ Delete_ID i in
    let '(c, resp) := Client_Delete c path None in
    match resp with
    | inl err => (c, Some err)
    | inr _ => (c, None)
    end.

End SingleResource.

(** [ListServiceAuthorizations] never reads its input, which may be nil. *)
Definition listRequest : Request :=
  {| req_path := "/service-authorizations";
     req_options :=
       Some {| Params := ∅;
               Headers := <["Accept"%string := "application/vnd.api+json"%string]> ∅ |} |}.

Definition ListServiceAuthorizations (c : Client)
  (i : option ListServiceAuthorizationsInput)
  : Client * (list ServiceAuthorization * option error) :=
  let '(c, resp) := Client_Get c (req_path listRequest) (req_options listRequest) in
  match resp with
  | inl err => (c, ([], Some err))
  | inr body =>
      match body_authorizations body with
      | inl err => (c, ([], Some err))
      | inr data =>
          match assertAuthorizations data with
          | inl err => (c, ([], Some err))
          | inr s => (c, (s, None))
          end
      end
  end.

(** Collaborators to run the single-resource calls on: every method
    answers like a GET at the same path, and every body decodes to the same
    authorization. *)
Definition someAuthorization : ServiceAuthorization :=
  {| SA_ID := "3krg2uUGZzb2W9Euo4moOY"; SA_Permission := "full";
     SA_CreatedAt := None; SA_UpdatedAt := None; SA_DeletedAt := None;
     SA_User := Some {| SAUser_ID := "4tKBSuFhNEiIpNDxmmVydt" |};
     SA_Service := Some {| SAService_ID := "7i6HN3TK9wS159v2gPAZ8A" |} |}.

Definition likeGet : Collaborators :=
  {| ErrMissingID := Errorf "Missing ID";
     ErrMissingPermissions := Errorf "Missing Permissions";
     ErrMissingServiceAuthorizationsService := Errorf "Missing Service";
     ErrMissingServiceAuthorizationsUser := Errorf "Missing User";
     PostJSONAPI := fun _ c path _ ro => Client_Get c path ro;
     PatchJSONAPI := fun _ c path _ ro => Client_Get c path ro;
     Client_Delete := fun c path ro => Client_Get c path ro;
     UnmarshalPayload := fun _ => inr someAuthorization |}.

(** ** What [formatFilters] sends for a value, and a walk that ends *)

Definition sentString (value : string) : option string :=
  if String.eqb value "" then None else Some value.

Definition sentInt (value : Z) : option string :=
  if value =? 0 then None else Some (strconv.Itoa value).

Definition sentInts (values : list Z) : option string :=
  match values with
  | [] => None
  | _ => Some (String.concat "," (map strconv.Itoa values))
  end.

Definition filterKeys : list string :=
  [ "filter[status]"; "filter[rule][accuracy]"; "filter[rule][maturity]";
    "filter[rule][message]"; "filter[rule][revision]"; "filter[rule][rule_id]";
    "filter[rule][tags]"; "filter[rule][tags][name]"; "filter[rule][version]";
    "include"; "page[size]"; "page[number]" ]%string.

(** [endsAfter filters n c path rules c']: starting at [path], [n] pages
    in a row are fetched, each links to the next and the last has no [next]
    link; [rules] are their statuses and [c'] is the client afterwards. *)
Inductive endsAfter (filters : option RequestOptions)
  : nat -> Client -> string -> list WAFRuleStatus -> Client -> Prop :=
| endsAfter_last c path rs :
    pageGives c path filters rs "" ->
    endsAfter filters 1 c path rs (afterGet c path filters)
| endsAfter_more n c path rs next rules c' :
    pageGives c path filters rs next ->
    next <> EmptyString ->
    endsAfter filters n (afterGet c path filters) next rules c' ->
    endsAfter filters (S n) c path (rs ++ rules) c'.

(** Every request is answered by a page that links to a next one. *)
Definition alwaysLinksOn (t : list Request -> Request -> error + Body) : Prop :=
  forall before r,
    exists body data rs,
      t before r = inr body
      /\ body_readAll body = None
      /\ body_statuses body = inr data
      /\ statusesOf data = Some rs
      /\ Next (body_links body) <> EmptyString.

(** A server whose every page links back to the same path. *)
Definition looping : Client :=
  {| transport := fun _ _ =>
       inr (statusesBody [ruleStatus "a" 1] "/service/svc/wafs/waf/rule_statuses");
     sent := [] |}.

(** Two pages of rule statuses, the second being the last. *)
Definition twoStatusPages : Client :=
  scripted [inr (statusesBody [ruleStatus "a" 1] "/service/svc/wafs/waf/rule_statuses?page[number]=2");
            inr (statusesBody [ruleStatus "b" 2] "")].

(** ** More paginators, clients and pages to run the code on *)

Definition resumed : ListServiceAuthorizationsPaginator :=
  {| consumed := true; CurrentPage := 2; NextPage := 3; LastPage := 5;
     options := Some fromStart |}.

Definition beyondLast : ListServiceAuthorizationsPaginator :=
  {| consumed := true; CurrentPage := 5; NextPage := 0; LastPage := 3;
     options := Some fromPage5 |}.

Definition singlePage : Client := scripted [inr (authorizationsBody "" "")].

Definition hugeLastPage : Client :=
  scripted [inr (authorizationsBody "" (page "99999999999999999999"))].

Definition danglingStatus : receivedWAFRuleStatus :=
  {| received_id := "c"; received_rule := None;
     received_waf := Some {| waf_id := "waf" |}; received_status := "log" |}.

Definition mixedStatuses : Client :=
  scripted [inr (statusesBody [ruleStatus "a" 1; IOther "*fastly.WAF"; ruleStatus "b" 2] "")].

Definition brokenStatuses : Client :=
  scripted [inr (statusesBody [ruleStatus "a" 1; IReceivedWAFRuleStatus danglingStatus] "")].

(** ** [waf.go]: one firewall object

    The type is [WAF] in the source; the name is taken here by the field
    of [GetWAFRuleStatusesInput].  [ErrMissingVersion] and the decoder of a
    single firewall are declared outside these sources. *)

Record WAFConfigurationSet := { ConfigurationSet_ID : string }.

Record WAFObject := {
  WAF_ID : string;
  WAF_Version : Z;
  WAF_PrefetchCondition : string;
  WAF_Response : string;
  WAF_LastPush : string;
  WAF_ConfigurationSet : option WAFConfigurationSet
}.

Class WAFCollaborators := {
  ErrMissingVersion : error;
  UnmarshalWAF : Body -> error + WAFObject
}.

Record CreateWAFInput := {
  CreateWAF_Service : string;
  CreateWAF_Version : Z;
  CreateWAF_ID : string;
  CreateWAF_PrefetchCondition : string;
  CreateWAF_Response : string
}.

Record GetWAFInput := {
  GetWAF_Service : string;
  GetWAF_Version : Z;
  GetWAF_ID : string
}.

Record UpdateWAFInput := {
  UpdateWAF_Service : string;
  UpdateWAF_Version : Z;
  UpdateWAF_ID : string;
  UpdateWAF_PrefetchCondition : string;
  UpdateWAF_Response : string
}.

Record DeleteWAFInput := {
  DeleteWAF_Service : string;
  DeleteWAF_Version : Z;
  DeleteWAF_ID : string
}.

(** [fmt.Sprintf("/service/%s/version/%d/wafs", ...)] and the same with
    [/%s] for the firewall appended. *)
Definition wafsPath (service : string) (version : Z) : string :=
  "/service/" +:+ service +:+ "/version/" +:+ strconv.Itoa version +:+ "/wafs".

Definition wafPath (service : string) (version : Z) (id : string) : string :=
  "/service/" +:+ service +:+ "/version/" +:+ strconv.Itoa version +:+ "/wafs/" +:+ id.

Definition decodeWAF `{WAFCollaborators} (r : Client * (error + Body))
  : Client * (option WAFObject * option error) :=
  let '(c, resp) := r in
  match resp with
  | inl err => (c, (None, Some err))
  | inr body =>
      match UnmarshalWAF body with
      | inl err => (c, (None, Some err))
      | inr waf => (c, (Some waf, None))
      end
  end.

Section Firewall.

Context `{Collaborators} `{WAFCollaborators}.

Definition CreateWAF (c : Client) (i : CreateWAFInput)
  : Client * (option WAFObject * option error) :=
  if String.eqb (CreateWAF_Service i) "" then (c, (None, Some ErrMissingService))
  else if CreateWAF_Version i =? 0 then (c, (None, Some ErrMissingVersion))
  else
    let path := wafsPath (CreateWAF_Service i) (CreateWAF_Version i) in
    decodeWAF (PostJSONAPI _ c path i None).

Definition GetWAF (c : Client) (i : GetWAFInput)
  : Client * (option WAFObject * option error) :=
  if String.eqb (GetWAF_Service i) "" then (c, (None, Some ErrMissingService))
  else if GetWAF_Version i =? 0 then (c, (None, Some ErrMissingVersion))
  else if String.eqb (GetWAF_ID i) "" then (c, (None, Some ErrMissingWAFID))
  else
    let path := wafPath (GetWAF_Service i) (GetWAF_Version i) (GetWAF_ID i) in
    decodeWAF (Client_Get c path None).

Definition UpdateWAF (c : Client) (i : UpdateWAFInput)
  : Client * (option WAFObject * option error) :=
  if String.eqb (UpdateWAF_Service i) "" then (c, (None, Some ErrMissingService))
  else if UpdateWAF_Version i =? 0 then (c, (None, Some ErrMissingVersion))
  else if String.eqb (UpdateWAF_ID i) "" then (c, (None, Some ErrMissingWAFID))
  else
    let path := wafPath (UpdateWAF_Service i) (UpdateWAF_Version i) (UpdateWAF_ID i) in
    decodeWAF (PatchJSONAPI _ c path i None).

Definition DeleteWAF (c : Client) (i : DeleteWAFInput) : Client * option error :=
  if String.eqb (DeleteWAF_Service i) "" then (c, Some ErrMissingService)
  else if DeleteWAF_Version i =? 0 then (c, Some ErrMissingVersion)
  else if String.eqb (DeleteWAF_ID i) "" then (c, Some ErrMissingWAFID)
  else
    let path := wafPath (DeleteWAF_Service i) (DeleteWAF_Version i) (DeleteWAF_ID i) in
    let '(c, resp) := Client_Delete c path None in
    match resp with
    | inl err => (c, Some err)
    | inr _ => (c, None)
    end.

End Firewall.

Definition someFirewall : WAFCollaborators :=
  {| ErrMissingVersion := Errorf "Missing Version";
     UnmarshalWAF := fun _ =>
       inr {| WAF_ID := "waf"; WAF_Version := 1; WAF_PrefetchCondition := "";
              WAF_Response := ""; WAF_LastPush := ""; WAF_ConfigurationSet := None |} |}.

(** ** Facts about Go's [int] *)

Lemma wrap_exact (z : Z) : GoInt.in_range z -> GoInt.wrap z = z.
Proof.
  unfold GoInt.in_range, GoInt.minInt, GoInt.maxInt, GoInt.wrap.
  intros Hz. rewrite Z.mod_small; lia.
Qed.

Lemma wrap_in_range (z : Z) : GoInt.in_range (GoInt.wrap z).
Proof.
  unfold GoInt.in_range, GoInt.minInt, GoInt.maxInt, GoInt.wrap.
  pose proof (Z.mod_pos_bound (z + 2 ^ 63) (2 ^ 64)). lia.
Qed.

Lemma add_exact (a b : Z) : GoInt.in_range (a + b) -> GoInt.add a b = a + b.
Proof. apply wrap_exact. Qed.

Lemma sub_exact (a b : Z) : GoInt.in_range (a - b) -> GoInt.sub a b = a - b.
Proof. apply wrap_exact. Qed.

Lemma sub_diag (a : Z) : GoInt.sub a a = 0.
Proof. unfold GoInt.sub. rewrite Z.sub_diag. reflexivity. Qed.

(** ** Facts about [strconv] *)

Lemma ParseUint_loop_syntax (s : string) (n : Z) :
  snd (strconv.ParseUint_loop s n) = Some strconv.ErrSyntax ->
  fst (strconv.ParseUint_loop s n) = 0.
Proof.
  revert n. induction s as [|ch s IH]; intros n; simpl; [discriminate|].
  destruct (strconv.digit ch); [|reflexivity].
  destruct (_ <=? n); [discriminate|].
  destruct (_ <? _); [discriminate|]. apply IH.
Qed.

(** A string that [Atoi] rejects as not a number yields the value 0. *)
Lemma Atoi_syntax (s : string) :
  snd (strconv.Atoi s) = Some strconv.ErrSyntax -> fst (strconv.Atoi s) = 0.
Proof.
  unfold strconv.Atoi, strconv.ParseInt.
  destruct s as [|ch s]; [reflexivity|].
  destruct (strconv.ParseUint _) as [un [[]|]] eqn:E; simpl; try reflexivity;
    repeat (case_match; simpl); discriminate.
Qed.

Lemma uintValue_grows (d : Decimal.uint) (acc : Z) :
  0 <= acc -> acc <= uintValue d acc.
Proof.
  revert acc. induction d as [|d IH|d IH|d IH|d IH|d IH|d IH|d IH|d IH|d IH|d IH];
    intros acc Hacc; simpl; [lia|..];
    (etransitivity; [|apply IH]; lia).
Qed.


Lemma ParseUint_loop_digit (ch : ascii) (s : string) (n d : Z) :
  strconv.digit ch = Some d ->
  0 <= d ->
  0 <= n ->
  n * 10 + d <= strconv.maxUint64 ->
  strconv.ParseUint_loop (String ch s) n = strconv.ParseUint_loop s (n * 10 + d).
Proof.
  intros Hd Hd0 Hn Hmax. simpl. rewrite Hd.
  change (strconv.maxUint64 / 10 + 1) with 1844674407370955162.
  change strconv.maxUint64 with 18446744073709551615 in *.
  destruct (Z.leb_spec 1844674407370955162 n); [lia|].
  destruct (Z.ltb_spec 18446744073709551615 (n * 10 + d)); [lia|]. reflexivity.
Qed.

Lemma ParseUint_loop_numeral (d : Decimal.uint) (n : Z) :
  0 <= n ->
  uintValue d n <= strconv.maxUint64 ->
  strconv.ParseUint_loop (NilEmpty.string_of_uint d) n = (uintValue d n, None).
Proof.
  revert n. induction d as [|d IH|d IH|d IH|d IH|d IH|d IH|d IH|d IH|d IH|d IH];
    intros n Hn Hmax; cbn [NilEmpty.string_of_uint uintValue] in *;
    [reflexivity|..];
    match type of Hmax with
    | uintValue d ?a <= _ => pose proof (uintValue_grows d a ltac:(lia))
    end;
    (erewrite ParseUint_loop_digit; [apply IH | reflexivity | ..]; lia).
Qed.

Lemma uintValue_acc (d : Decimal.uint) (acc : positive) :
  uintValue d (Z.pos acc) = Z.pos (Pos.of_uint_acc d acc).
Proof.
  revert acc. induction d as [|d IH|d IH|d IH|d IH|d IH|d IH|d IH|d IH|d IH|d IH];
    intros acc; simpl; [reflexivity|..]; rewrite <- IH; f_equal; lia.
Qed.

Lemma uintValue_of_uint (d : Decimal.uint) :
  uintValue d 0 = Z.of_N (Pos.of_uint d).
Proof.
  induction d as [|d IH|d IH|d IH|d IH|d IH|d IH|d IH|d IH|d IH|d IH];
    simpl; [reflexivity | exact IH | ..]; apply uintValue_acc.
Qed.

Lemma uintValue_to_uint (p : positive) : uintValue (Pos.to_uint p) 0 = Z.pos p.
Proof. by rewrite uintValue_of_uint, DecimalPos.Unsigned.of_to. Qed.

(** The digits of a positive number, read back. *)
Lemma ParseUint_numeral (p : positive) :
  Z.pos p <= strconv.maxUint64 ->
  strconv.ParseUint (NilEmpty.string_of_uint (Pos.to_uint p)) = (Z.pos p, None).
Proof.
  intros Hp. unfold strconv.ParseUint.
  rewrite ParseUint_loop_numeral by (rewrite ?uintValue_to_uint; lia).
  rewrite uintValue_to_uint.
  pose proof (Unsigned.to_uint_nonnil p) as Hnil.
  by destruct (Pos.to_uint p).
Qed.

Lemma neg_wrap_pos (p : positive) :
  Z.pos p <= 2 ^ 63 -> GoInt.neg (GoInt.wrap (Z.pos p)) = Z.neg p.
Proof.
  intros Hp. destruct (Z.eq_dec (Z.pos p) (2 ^ 63)) as [Heq|Hne].
  - rewrite Heq. replace (Z.neg p) with (- 2 ^ 63) by lia. reflexivity.
  - unfold GoInt.neg. rewrite (wrap_exact (Z.pos p)), wrap_exact; unfold GoInt.in_range,
      GoInt.minInt, GoInt.maxInt; lia.
Qed.

(** [Atoi] reads back what [Itoa] printed, for every [int]. *)
Lemma Atoi_Itoa (z : Z) :
  GoInt.in_range z -> strconv.Atoi (strconv.Itoa z) = (z, None).
Proof.
  unfold GoInt.in_range, GoInt.minInt, GoInt.maxInt. intros Hz.
  destruct z as [|p|p]; [reflexivity|..].
  - unfold strconv.Itoa, strconv.Atoi. simpl Z.to_int. cbn [NilZero.string_of_int].
    pose proof (Unsigned.to_uint_nonnil p) as Hnil.
    pose proof (ParseUint_numeral p) as Hparse.
    unfold NilZero.string_of_uint.
    destruct (Pos.to_uint p) as [|d|d|d|d|d|d|d|d|d|d]; [done|..];
      cbn [NilEmpty.string_of_uint] in *; unfold strconv.ParseInt;
      cbn [Ascii.eqb Bool.eqb orb];
      (rewrite Hparse by (unfold strconv.maxUint64; lia));
      cbv zeta; cbn [negb andb];
      (destruct (Z.leb_spec (2 ^ 63) (Z.pos p)); [lia|]);
      (rewrite wrap_exact by (unfold GoInt.in_range, GoInt.minInt, GoInt.maxInt; lia));
      reflexivity.
  - unfold strconv.Itoa, strconv.Atoi. simpl Z.to_int. cbn [NilZero.string_of_int].
    pose proof (Unsigned.to_uint_nonnil p) as Hnil.
    pose proof (ParseUint_numeral p) as Hparse.
    unfold NilZero.string_of_uint.
    assert (Hs : (match Pos.to_uint p with
                  | Decimal.Nil => "0"%string
                  | _ => NilEmpty.string_of_uint (Pos.to_uint p)
                  end) = NilEmpty.string_of_uint (Pos.to_uint p))
      by (by destruct (Pos.to_uint p)).
    rewrite Hs. unfold strconv.ParseInt. cbn [Ascii.eqb Bool.eqb orb].
    rewrite Hparse by (unfold strconv.maxUint64; lia).
    cbv zeta. cbn [negb andb].
    destruct (Z.ltb_spec (2 ^ 63) (Z.pos p)); [lia|].
    by rewrite neg_wrap_pos by lia.
Qed.

(** ** One call of the paginator *)

(** On a consumed paginator the first branch of the page choice, when it
    is taken, agrees with the last: 1 is 0 + 1. *)
Lemma pageFor_consumed (i : ListServiceAuthorizationsInput)
  (p : ListServiceAuthorizationsPaginator) :
  consumed p = true -> pageFor i p = GoInt.add (CurrentPage p) 1.
Proof.
  intros Hc. unfold pageFor. rewrite Hc. simpl.
  destruct (Z.leb_spec (Page i) 0), (Z.eqb_spec (CurrentPage p) 0); simpl;
    try reflexivity.
  by replace (CurrentPage p) with 0.
Qed.

Section PaginatorFacts.

Context `{NetURL}.

Ltac run_call :=
  unfold GetNext, listServiceAuthorizationsWithPage, followLink, Client_Get,
    clientAfter, paginatorAfter, resultOf, sizeFor, pageFor;
  repeat (case_match; simplify_eq /=; try done).

(** Every call on a non-nil input sends exactly one request. *)
Lemma call_sent (c : Client) (i : ListServiceAuthorizationsInput)
  (p : ListServiceAuthorizationsPaginator) :
  sent (clientAfter (listServiceAuthorizationsWithPage c (Some i) p))
  = sent c ++ [pageRequest i p].
Proof. unfold pageRequest. run_call. Qed.

(** The page number is stored in the paginator before the request leaves
    and no later step touches it. *)
Lemma call_CurrentPage (c : Client) (i : ListServiceAuthorizationsInput)
  (p : ListServiceAuthorizationsPaginator) :
  CurrentPage (paginatorAfter (listServiceAuthorizationsWithPage c (Some i) p))
  = pageFor i p.
Proof. run_call. Qed.

Lemma call_options (c : Client) (i : option ListServiceAuthorizationsInput)
  (p : ListServiceAuthorizationsPaginator) :
  options (paginatorAfter (listServiceAuthorizationsWithPage c i p)) = options p.
Proof. run_call. Qed.

Lemma call_emits_number (c : Client) (i : ListServiceAuthorizationsInput)
  (p : ListServiceAuthorizationsPaginator) :
  emittedParam "page[number]" (clientAfter (listServiceAuthorizationsWithPage c (Some i) p))
  = Some (strconv.Itoa (pageFor i p)).
Proof.
  unfold emittedParam. rewrite call_sent, last_snoc. simpl.
  rewrite lookup_insert_ne by done. apply lookup_insert_eq.
Qed.

Lemma call_emits_size (c : Client) (i : ListServiceAuthorizationsInput)
  (p : ListServiceAuthorizationsPaginator) :
  emittedParam "page[size]" (clientAfter (listServiceAuthorizationsWithPage c (Some i) p))
  = Some (strconv.Itoa (sizeFor i)).
Proof.
  unfold emittedParam. rewrite call_sent, last_snoc. simpl.
  apply lookup_insert_eq.
Qed.

(** A call that returns without an error has marked the paginator as
    consumed. *)
Lemma call_success_consumed (c : Client) (i : ListServiceAuthorizationsInput)
  (p : ListServiceAuthorizationsPaginator) (s : list ServiceAuthorization) :
  resultOf (listServiceAuthorizationsWithPage c (Some i) p) = Returns (s, None) ->
  consumed (paginatorAfter (listServiceAuthorizationsWithPage c (Some i) p)) = true.
Proof. run_call. Qed.

(** A call that returns an error has changed [CurrentPage] and nothing
    else. *)
Lemma call_error_state (c : Client) (i : ListServiceAuthorizationsInput)
  (p : ListServiceAuthorizationsPaginator) (s : list ServiceAuthorization) (e : error) :
  resultOf (listServiceAuthorizationsWithPage c (Some i) p) = Returns (s, Some e) ->
  paginatorAfter (listServiceAuthorizationsWithPage c (Some i) p)
  = set_CurrentPage (pageFor i p) p.
Proof. run_call. Qed.

(** [LastPage] is written by the step right before [consumed], and nothing
    can fail in between. *)
Lemma call_unconsumed_LastPage (c : Client) (p : ListServiceAuthorizationsPaginator) :
  consumed (paginatorAfter (GetNext c p)) = false ->
  consumed p = false /\ LastPage (paginatorAfter (GetNext c p)) = LastPage p.
Proof. run_call. Qed.

Lemma reachable_unconsumed (p : ListServiceAuthorizationsPaginator) :
  reachable p -> consumed p = false -> LastPage p = 0.
Proof.
  induction 1 as [i | c p Hp IH]; intros Hc; [reflexivity|].
  apply call_unconsumed_LastPage in Hc as [Hc ->]. auto.
Qed.

End PaginatorFacts.

(** ** The claims about [HasNext], [Remaining] and the request parameters *)

(** C2: [HasNext] is true exactly when no fetch has completed yet
    ([consumed] is false) or [Remaining] is not 0.  So it is true of every
    paginator that is not yet consumed, whatever [Remaining] says, and in
    particular of one just built by [NewListServiceAuthorizationsPaginator]. *)
Theorem C2_HasNext (p : ListServiceAuthorizationsPaginator) :
  (HasNext p = true <-> consumed p = false \/ Remaining p <> 0)
  /\ (consumed p = false -> HasNext p = true)
  /\ (forall i, HasNext (NewListServiceAuthorizationsPaginator i) = true).
Proof.
  unfold HasNext. split; [split|split].
  - intros Hn. apply orb_true_iff in Hn as [Hn|Hn].
    + left. by destruct (consumed p).
    + right. intros Hr. rewrite Hr in Hn. discriminate.
  - intros [-> | Hr]; [reflexivity|].
    apply orb_true_iff. right. by destruct (Z.eqb_spec (Remaining p) 0).
  - by intros ->.
  - reflexivity.
Qed.

Lemma C2_HasNext_witness :
  HasNext {| consumed := true; CurrentPage := 1; NextPage := 2; LastPage := 3;
             options := None |} = true
  /\ HasNext {| consumed := false; CurrentPage := 3; NextPage := 0; LastPage := 3;
                options := None |} = true.
Proof.
  split.
  - apply (proj1 (C2_HasNext _)). right. vm_compute. discriminate.
  - apply (proj1 (proj2 (C2_HasNext _))). reflexivity.
Defined.

Section Claims.

Context `{NetURL}.

(** C3: [Remaining] is 0 when [LastPage] is 0 and [LastPage - CurrentPage]
    otherwise, the subtraction being Go's (exact whenever the difference
    fits an [int]).  Before the first fetch it is 0: for a new paginator,
    and for every paginator no call has yet consumed, since [LastPage]
    is still 0 there. *)
Theorem C3_Remaining (p : ListServiceAuthorizationsPaginator) :
  (LastPage p = 0 -> Remaining p = 0)
  /\ (LastPage p <> 0 -> Remaining p = GoInt.sub (LastPage p) (CurrentPage p))
  /\ (LastPage p <> 0 -> GoInt.in_range (LastPage p - CurrentPage p) ->
      Remaining p = LastPage p - CurrentPage p)
  /\ (forall i, Remaining (NewListServiceAuthorizationsPaginator i) = 0)
  /\ (reachable p -> consumed p = false -> Remaining p = 0).
Proof.
  unfold Remaining. split; [|split; [|split; [|split]]].
  - by intros ->.
  - intros Hl. by destruct (Z.eqb_spec (LastPage p) 0).
  - intros Hl Hr. destruct (Z.eqb_spec (LastPage p) 0); [done|].
    by apply sub_exact.
  - reflexivity.
  - intros Hp Hc. by rewrite (reachable_unconsumed p Hp Hc).
Qed.

(** C1: the page number a call asks for.  With no starting page
    ([Page <= 0]) and [CurrentPage] at 0 it is 1; on a paginator not yet
    consumed and with a starting page it is that page; on a consumed
    paginator it is [CurrentPage + 1] in Go's arithmetic (exact unless
    [CurrentPage] is the largest [int]).  A call that succeeds asked for
    the page it left in [CurrentPage], and the call after it asks for the
    following one: 2 after 1, 6 after 5. *)
Theorem C1_page_number (c : Client) (p : ListServiceAuthorizationsPaginator)
  (i : ListServiceAuthorizationsInput) :
  options p = Some i ->
  let r := GetNext c p in
  (Page i <= 0 -> CurrentPage p = 0 ->
   emittedParam "page[number]" (clientAfter r) = Some "1"%string)
  /\ (consumed p = false -> 0 < Page i ->
      emittedParam "page[number]" (clientAfter r) = Some (strconv.Itoa (Page i)))
  /\ (consumed p = true ->
      emittedParam "page[number]" (clientAfter r)
      = Some (strconv.Itoa (GoInt.add (CurrentPage p) 1))
      /\ (CurrentPage p < GoInt.maxInt -> GoInt.minInt <= CurrentPage p ->
          emittedParam "page[number]" (clientAfter r)
          = Some (strconv.Itoa (CurrentPage p + 1))))
  /\ (forall s, resultOf r = Returns (s, None) ->
      let n := CurrentPage (paginatorAfter r) in
      emittedParam "page[number]" (clientAfter r) = Some (strconv.Itoa n)
      /\ emittedParam "page[number]"
           (clientAfter (GetNext (clientAfter r) (paginatorAfter r)))
         = Some (strconv.Itoa (GoInt.add n 1))).
Proof.
  intros Hi r. subst r. cbv zeta.
  assert (HG : GetNext c p = listServiceAuthorizationsWithPage c (Some i) p)
    by (unfold GetNext; by rewrite Hi).
  rewrite !HG, !call_emits_number.
  split; [|split; [|split]].
  - intros Hp Hc. unfold pageFor.
    destruct (Z.leb_spec (Page i) 0); [|lia]. by rewrite Hc.
  - intros Hc Hp. unfold pageFor.
    destruct (Z.leb_spec (Page i) 0); [lia|]. by rewrite Hc.
  - intros Hc. rewrite pageFor_consumed by done. split; [done|].
    intros Hmax Hmin. f_equal. f_equal.
    apply add_exact. unfold GoInt.in_range. lia.
  - intros s Hs. split; [by rewrite call_CurrentPage|].
    unfold GetNext. rewrite call_options, Hi, call_emits_number.
    f_equal. f_equal.
    apply pageFor_consumed, (call_success_consumed c i p s Hs).
Qed.

(** C5, as the code has it: the page size sent is 100 when [PerPage] is
    not positive and [PerPage] itself otherwise, so it stays within 100
    exactly when [PerPage] does; a larger [PerPage] is sent as it is. *)
Theorem C5_page_size_not_capped (c : Client) (p : ListServiceAuthorizationsPaginator)
  (i : ListServiceAuthorizationsInput) :
  options p = Some i ->
  exists n,
    emittedParam "page[size]" (clientAfter (GetNext c p)) = Some (strconv.Itoa n)
    /\ n = (if PerPage i <=? 0 then 100 else PerPage i)
    /\ (n <= 100 <-> PerPage i <= 100)
    /\ (100 < PerPage i -> n = PerPage i).
Proof.
  intros Hi. exists (sizeFor i). unfold GetNext. rewrite Hi, call_emits_size.
  unfold sizeFor, maxPerPage.
  destruct (Z.leb_spec (PerPage i) 0); repeat split; lia.
Qed.

(** C6: with [PerPage <= 0] the request carries [page[size]=100]; with a
    positive [PerPage] it carries the decimal numeral of [PerPage], which
    for 25 reads 25, and which [Atoi] reads back as [PerPage]. *)
Theorem C6_page_size (c : Client) (p : ListServiceAuthorizationsPaginator)
  (i : ListServiceAuthorizationsInput) :
  options p = Some i ->
  (PerPage i <= 0 ->
   emittedParam "page[size]" (clientAfter (GetNext c p)) = Some "100"%string)
  /\ (0 < PerPage i ->
      emittedParam "page[size]" (clientAfter (GetNext c p))
      = Some (strconv.Itoa (PerPage i)))
  /\ (PerPage i = 25 ->
      emittedParam "page[size]" (clientAfter (GetNext c p)) = Some "25"%string)
  /\ (0 < PerPage i -> GoInt.in_range (PerPage i) ->
      exists v, emittedParam "page[size]" (clientAfter (GetNext c p)) = Some v
                /\ strconv.Atoi v = (PerPage i, None)).
Proof.
  intros Hi. unfold GetNext. rewrite Hi, call_emits_size. unfold sizeFor.
  split; [|split; [|split]].
  - intros Hp. by destruct (Z.leb_spec (PerPage i) 0); [|lia].
  - intros Hp. by destruct (Z.leb_spec (PerPage i) 0); [lia|].
  - by intros ->.
  - intros Hp Hr. destruct (Z.leb_spec (PerPage i) 0); [lia|].
    eexists. split; [reflexivity|]. by apply Atoi_Itoa.
Qed.

End Claims.

(** ** The claims about links and about errors *)

Section LinkClaims.

Context `{NetURL}.

(** Once the body is decoded, all that is left of a call is the two link
    steps. *)
Lemma call_responds (c : Client) (i : ListServiceAuthorizationsInput)
  (p : ListServiceAuthorizationsPaginator) (info : infoResponse)
  (s : list ServiceAuthorization) :
  responds c i p info s ->
  listServiceAuthorizationsWithPage c (Some i) p
  = let c' := {| transport := transport c; sent := sent c ++ [pageRequest i p] |} in
    let p1 := set_CurrentPage (pageFor i p) p in
    match followLink (Next (Links info)) set_NextPage p1 with
    | Panics why => (c', p1, Panics why)
    | Returns p2 =>
        match followLink (Last (Links info)) set_LastPage p2 with
        | Panics why => (c', p2, Panics why)
        | Returns p3 => (c', set_consumed true p3, Returns (s, None))
        end
    end.
Proof.
  intros (body & data & Hget & Hinfo & Hdata & Hs).
  unfold pageRequest, sizeFor, pageFor in *.
  unfold listServiceAuthorizationsWithPage, Client_Get.
  destruct (PerPage i <=? 0), ((Page i <=? 0) && (CurrentPage p =? 0)),
    (negb (consumed p)); simpl in *; by rewrite Hget, Hinfo, Hdata, Hs.
Qed.

Lemma followLink_absent store (p : ListServiceAuthorizationsPaginator) :
  followLink "" store p = Returns p.
Proof. reflexivity. Qed.

Lemma followLink_present (l : string) store (p : ListServiceAuthorizationsPaginator) :
  l <> EmptyString ->
  followLink l store p
  = match linkPageNumber l with
    | Returns n => Returns (store n p)
    | Panics why => Panics why
    end.
Proof.
  intros Hl. unfold followLink. by destruct (String.eqb_spec l "").
Qed.

Lemma followLink_harmless (l : string) store (p : ListServiceAuthorizationsPaginator) :
  harmless l ->
  exists p', followLink l store p = Returns p'
             /\ (p' = p \/ exists n, p' = store n p).
Proof.
  intros [-> | [n Hn]].
  - exists p. split; [reflexivity | by left].
  - unfold followLink. destruct (String.eqb l ""); [by eauto|].
    rewrite Hn. eauto.
Qed.

Lemma linkPageNumber_nonNumeric (l : string) :
  nonNumericPage l -> linkPageNumber l = Returns 0.
Proof.
  intros (_ & u & v & vs & Hu & Hq & Hv). unfold linkPageNumber.
  by rewrite Hu, Hq, (Atoi_syntax v Hv).
Qed.

Lemma linkPageNumber_unparsable (l : string) :
  unparsable l -> linkPageNumber l = Panics NilDereference.
Proof. intros [_ Hu]. unfold linkPageNumber. by rewrite Hu. Qed.

Lemma linkPageNumber_pageless (l : string) :
  pageless l -> linkPageNumber l = Panics IndexOutOfRange.
Proof.
  intros (_ & u & Hu & [Hq | Hq]); unfold linkPageNumber; by rewrite Hu, Hq.
Qed.

(** C4, as the code has it: a [next] link whose [page[number]] is not a
    number raises no error, and [NextPage] becomes 0, the value [Atoi]
    hands back beside the error that is dropped; so [NextPage] keeps its
    previous value only if that was 0.  Likewise for [last] and
    [LastPage]. *)
Theorem C4_non_numeric_link (c : Client) (p : ListServiceAuthorizationsPaginator)
  (i : ListServiceAuthorizationsInput) (info : infoResponse)
  (s : list ServiceAuthorization) :
  options p = Some i ->
  responds c i p info s ->
  let r := GetNext c p in
  (nonNumericPage (Next (Links info)) -> harmless (Last (Links info)) ->
   resultOf r = Returns (s, None) /\ NextPage (paginatorAfter r) = 0)
  /\ (nonNumericPage (Last (Links info)) -> harmless (Next (Links info)) ->
      resultOf r = Returns (s, None) /\ LastPage (paginatorAfter r) = 0).
Proof.
  intros Hi Hr r. subst r. unfold GetNext. rewrite Hi, (call_responds _ _ _ _ _ Hr).
  cbv zeta. split.
  - intros Hn Hl.
    rewrite (followLink_present _ _ _ (proj1 Hn)), (linkPageNumber_nonNumeric _ Hn).
    destruct (followLink_harmless _ set_LastPage
                (set_NextPage 0 (set_CurrentPage (pageFor i p) p)) Hl)
      as (p' & -> & [-> | [n ->]]); by split.
  - intros Hl Hn.
    destruct (followLink_harmless _ set_NextPage
                (set_CurrentPage (pageFor i p) p) Hn) as (p' & -> & _).
    rewrite (followLink_present _ _ _ (proj1 Hl)), (linkPageNumber_nonNumeric _ Hl).
    by split.
Qed.

(** C7: a call that succeeds and whose [last] link names the page just
    fetched leaves [Remaining] at 0 and [HasNext] false.  This holds after
    any successful call, the first one on a new paginator included. *)
Theorem C7_last_page_reached (c : Client) (p : ListServiceAuthorizationsPaginator)
  (i : ListServiceAuthorizationsInput) (info : infoResponse)
  (s : list ServiceAuthorization) (u : URL) (v : string) (vs : list string) :
  options p = Some i ->
  responds c i p info s ->
  harmless (Next (Links info)) ->
  Last (Links info) <> EmptyString ->
  url_Parse (Last (Links info)) = Some u ->
  URL_Query u !! "page[number]"%string = Some (v :: vs) ->
  strconv.Atoi v = (CurrentPage (paginatorAfter (GetNext c p)), None) ->
  resultOf (GetNext c p) = Returns (s, None)
  /\ Remaining (paginatorAfter (GetNext c p)) = 0
  /\ HasNext (paginatorAfter (GetNext c p)) = false.
Proof.
  intros Hi Hr Hn Hl Hu Hq. unfold GetNext. rewrite Hi.
  rewrite call_CurrentPage, (call_responds _ _ _ _ _ Hr). cbv zeta.
  intros Hv.
  destruct (followLink_harmless _ set_NextPage
              (set_CurrentPage (pageFor i p) p) Hn) as (p' & -> & Hp').
  rewrite (followLink_present _ _ _ Hl). unfold linkPageNumber.
  rewrite Hu, Hq, Hv. simpl.
  assert (Hcur : CurrentPage p' = pageFor i p)
    by (destruct Hp' as [-> | [n ->]]; reflexivity).
  unfold HasNext, Remaining, paginatorAfter, resultOf. simpl.
  rewrite Hcur, sub_diag. split; [reflexivity|].
  destruct (pageFor i p =? 0); by split.
Qed.

(** C8: a [next] or [last] link that is present but does not parse, or
    that parses but has no [page[number]], makes the call panic: no error
    value is returned.  The panic is a nil dereference when the link does
    not parse and an index out of range when the parameter is missing. *)
Theorem C8_link_crash (c : Client) (p : ListServiceAuthorizationsPaginator)
  (i : ListServiceAuthorizationsInput) (info : infoResponse)
  (s : list ServiceAuthorization) :
  options p = Some i ->
  responds c i p info s ->
  let next := Next (Links info) in
  let last := Last (Links info) in
  (unparsable next \/ pageless next \/ unparsable last \/ pageless last ->
   exists why, resultOf (GetNext c p) = Panics why)
  /\ (unparsable next -> resultOf (GetNext c p) = Panics NilDereference)
  /\ (pageless next -> resultOf (GetNext c p) = Panics IndexOutOfRange)
  /\ (harmless next -> unparsable last ->
      resultOf (GetNext c p) = Panics NilDereference)
  /\ (harmless next -> pageless last ->
      resultOf (GetNext c p) = Panics IndexOutOfRange).
Proof.
  intros Hi Hr next last. subst next last. unfold GetNext.
  rewrite Hi, (call_responds _ _ _ _ _ Hr). cbv zeta.
  set (p1 := set_CurrentPage (pageFor i p) p).
  assert (Hnext1 : unparsable (Next (Links info)) ->
            followLink (Next (Links info)) set_NextPage p1 = Panics NilDereference).
  { intros Hn. by rewrite (followLink_present _ _ _ (proj1 Hn)),
                 (linkPageNumber_unparsable _ Hn). }
  assert (Hnext2 : pageless (Next (Links info)) ->
            followLink (Next (Links info)) set_NextPage p1 = Panics IndexOutOfRange).
  { intros Hn. by rewrite (followLink_present _ _ _ (proj1 Hn)),
                 (linkPageNumber_pageless _ Hn). }
  assert (Hlast1 : forall p2, unparsable (Last (Links info)) ->
            followLink (Last (Links info)) set_LastPage p2 = Panics NilDereference).
  { intros p2 Hl. by rewrite (followLink_present _ _ _ (proj1 Hl)),
                    (linkPageNumber_unparsable _ Hl). }
  assert (Hlast2 : forall p2, pageless (Last (Links info)) ->
            followLink (Last (Links info)) set_LastPage p2 = Panics IndexOutOfRange).
  { intros p2 Hl. by rewrite (followLink_present _ _ _ (proj1 Hl)),
                    (linkPageNumber_pageless _ Hl). }
  split; [|split; [|split; [|split]]].
  - intros [Hn | [Hn | [Hl | Hl]]].
    + rewrite (Hnext1 Hn). by eexists.
    + rewrite (Hnext2 Hn). by eexists.
    + destruct (followLink _ set_NextPage p1) as [p2|why]; [|by eexists].
      rewrite (Hlast1 p2 Hl). by eexists.
    + destruct (followLink _ set_NextPage p1) as [p2|why]; [|by eexists].
      rewrite (Hlast2 p2 Hl). by eexists.
  - intros Hn. by rewrite (Hnext1 Hn).
  - intros Hn. by rewrite (Hnext2 Hn).
  - intros Hn Hl.
    destruct (followLink_harmless _ set_NextPage p1 Hn) as (p2 & -> & _).
    by rewrite (Hlast1 p2 Hl).
  - intros Hn Hl.
    destruct (followLink_harmless _ set_NextPage p1 Hn) as (p2 & -> & _).
    by rewrite (Hlast2 p2 Hl).
Qed.

(** C9, as the code has it: [CurrentPage] is written before the request
    is sent and [consumed] only after everything succeeded.  When the
    first call on a new paginator with [Page <= 0] returns an error, the
    paginator is left with [CurrentPage] 1 and [consumed] false, and the
    retry asks for the page number [Page] of the input: 0 when [Page] is
    0, and the negative number itself when [Page] is negative. *)
Theorem C9_retry_after_error (c : Client) (i : ListServiceAuthorizationsInput)
  (s : list ServiceAuthorization) (e : error) :
  Page i <= 0 ->
  let r := GetNext c (NewListServiceAuthorizationsPaginator (Some i)) in
  resultOf r = Returns (s, Some e) ->
  emittedParam "page[number]" (clientAfter r) = Some "1"%string
  /\ CurrentPage (paginatorAfter r) = 1
  /\ consumed (paginatorAfter r) = false
  /\ emittedParam "page[number]"
       (clientAfter (GetNext (clientAfter r) (paginatorAfter r)))
     = Some (strconv.Itoa (Page i))
  /\ (Page i = 0 ->
      emittedParam "page[number]"
        (clientAfter (GetNext (clientAfter r) (paginatorAfter r)))
      = Some "0"%string).
Proof.
  intros Hp r Hr. subst r.
  set (p0 := NewListServiceAuthorizationsPaginator (Some i)) in *.
  change (GetNext c p0) with (listServiceAuthorizationsWithPage c (Some i) p0) in *.
  unfold GetNext. rewrite call_options. change (options p0) with (Some i).
  rewrite (call_error_state _ _ _ _ _ Hr), !call_emits_number.
  assert (H1 : pageFor i p0 = 1).
  { unfold pageFor. simpl. by destruct (Z.leb_spec (Page i) 0); [|lia]. }
  assert (H2 : pageFor i (set_CurrentPage 1 p0) = Page i).
  { unfold pageFor. simpl. by rewrite andb_false_r. }
  rewrite H1, H2. repeat split; try reflexivity. by intros ->.
Qed.

End LinkClaims.

(** ** The claim about the walk over rule statuses *)

Lemma appendStatuses_all (data : list iface) (rs rules : list WAFRuleStatus) :
  statusesOf data = Some rs ->
  appendStatuses data rules = (rules ++ rs, Returns None).
Proof.
  revert rs rules. induction data as [|v data IH]; intros rs rules; simpl.
  - intros [= <-]. by rewrite app_nil_r.
  - destruct v as [| typed |]; try discriminate.
    destruct (simplify typed) as [r|]; [|discriminate].
    destruct (statusesOf data) as [rs'|]; [|discriminate].
    intros [= <-]. rewrite (IH rs' (rules ++ [r]) eq_refl).
    by rewrite <- app_assoc.
Qed.

(** A page that fails on its own returns its error and leaves the answer
    alone. *)
Lemma fetch_fails (fuel : nat) (c : Client) (answer : GetWAFRuleStatusesResponse)
  (path : string) (filters : option RequestOptions) (err : error) :
  pageFails c path filters err ->
  fetchWAFRuleStatusesPage (S fuel) c answer path filters
  = Some (afterGet c path filters, answer, Returns (Some err)).
Proof.
  unfold afterGet. simpl.
  intros [He | body Hb He | body Hb Hr He]; unfold getRequest in *;
    rewrite ?He, ?Hb; simpl; unfold getPages; by rewrite ?He, ?Hr, ?He.
Qed.

(** The error of the recursive call is dropped: a page that links to a
    next one returns nil whatever error the walk from there returns. *)
Lemma fetch_drops_error (fuel : nat) (c c' : Client)
  (answer answer' : GetWAFRuleStatusesResponse) (path : string)
  (filters : option RequestOptions) (rs : list WAFRuleStatus) (next : string)
  (res : option error) :
  pageGives c path filters rs next ->
  next <> EmptyString ->
  fetchWAFRuleStatusesPage fuel (afterGet c path filters)
    (set_Rules (Rules answer ++ rs) answer) next filters
  = Some (c', answer', Returns res) ->
  fetchWAFRuleStatusesPage (S fuel) c answer path filters
  = Some (c', answer', Returns None).
Proof.
  intros (body & data & Hb & Hr & Hd & Hs & Hn) Hnext Hrec.
  unfold afterGet, getRequest in *. simpl in *.
  rewrite Hb. unfold getPages. rewrite Hr, Hd, (appendStatuses_all _ _ _ Hs), Hn.
  destruct (String.eqb_spec next ""); [done|]. by rewrite Hrec.
Qed.

Lemma fetch_failsAfter (filters : option RequestOptions) (n : nat) (c c' : Client)
  (path : string) (rules : list WAFRuleStatus) (err : error) :
  failsAfter filters n c path rules c' err ->
  forall (fuel : nat) (answer : GetWAFRuleStatusesResponse),
    (n < fuel)%nat ->
    fetchWAFRuleStatusesPage fuel c answer path filters
    = Some (c', set_Rules (Rules answer ++ rules) answer,
            Returns (match n with O => Some err | S _ => None end)).
Proof.
  induction 1 as [c path err Hf | n c path rs next rules c' err Hg Hnext Hw IH];
    intros fuel answer Hfuel; (destruct fuel as [|fuel]; [lia|]).
  - rewrite (fetch_fails _ _ _ _ _ _ Hf), app_nil_r. by destruct answer.
  - eapply fetch_drops_error; [done..|].
    rewrite (IH fuel (set_Rules (Rules answer ++ rs) answer)) by lia.
    simpl. by rewrite <- app_assoc.
Qed.

(** C10: when the first page of rule statuses is fetched and a later page
    fails, in the transport or in a decoder, [GetWAFRuleStatuses] returns a
    nil error and the rules of the pages fetched before the failure: the
    error of the recursive call in [fetchWAFRuleStatusesPage] is dropped.
    The walk ends within one step per page. *)
Theorem C10_later_error_dropped (c c' : Client) (i : GetWAFRuleStatusesInput)
  (n : nat) (rules : list WAFRuleStatus) (err : error) :
  Service i <> EmptyString ->
  WAF i <> EmptyString ->
  failsAfter (statusesFilters i) (S n) c (statusesPath i) rules c' err ->
  forall fuel : nat,
    (S n < fuel)%nat ->
    GetWAFRuleStatuses fuel c i
    = Some (c', {| Rules := rules; Response_Links := paginationInfo_zero |},
            Returns None).
Proof.
  intros Hs Hw Hwalk fuel Hfuel. unfold GetWAFRuleStatuses.
  destruct (String.eqb_spec (Service i) ""); [done|].
  destruct (String.eqb_spec (WAF i) ""); [done|].
  fold (statusesFilters i).
  by rewrite (fetch_failsAfter _ _ _ _ _ _ _ Hwalk fuel _ Hfuel).
Qed.

(** By contrast an error on the first page is returned. *)
Lemma first_error_returned (c c' : Client) (i : GetWAFRuleStatusesInput)
  (rules : list WAFRuleStatus) (err : error) :
  Service i <> EmptyString ->
  WAF i <> EmptyString ->
  failsAfter (statusesFilters i) 0 c (statusesPath i) rules c' err ->
  forall fuel : nat,
    (0 < fuel)%nat ->
    GetWAFRuleStatuses fuel c i
    = Some (c', {| Rules := []; Response_Links := paginationInfo_zero |},
            Returns (Some err)).
Proof.
  intros Hs Hw Hwalk fuel Hfuel. unfold GetWAFRuleStatuses.
  destruct (String.eqb_spec (Service i) ""); [done|].
  destruct (String.eqb_spec (WAF i) ""); [done|].
  fold (statusesFilters i).
  rewrite (fetch_failsAfter _ _ _ _ _ _ _ Hwalk fuel _ Hfuel).
  by inversion Hwalk.
Qed.

(** ** The claims on concrete runs *)

Lemma C3_Remaining_witness :
  Remaining onPage2of5 = 3
  /\ Remaining (NewListServiceAuthorizationsPaginator (Some fromStart)) = 0
  /\ Remaining (paginatorAfter
                  (GetNext (H := PlainURL.net_url) (scripted [unreachable])
                     (NewListServiceAuthorizationsPaginator (Some fromStart)))) = 0.
Proof.
  split; [|split].
  - apply (proj1 (proj2 (proj2 (C3_Remaining (H := PlainURL.net_url) onPage2of5)))).
    + discriminate.
    + vm_compute. split; discriminate.
  - apply (proj1 (C3_Remaining (H := PlainURL.net_url)
                    (NewListServiceAuthorizationsPaginator (Some fromStart)))).
    reflexivity.
  - apply (proj2 (proj2 (proj2 (proj2 (C3_Remaining (H := PlainURL.net_url)
             (paginatorAfter
                (GetNext (H := PlainURL.net_url) (scripted [unreachable])
                   (NewListServiceAuthorizationsPaginator (Some fromStart))))))))).
    + apply reachable_next, reachable_new.
    + reflexivity.
Defined.

Lemma C1_page_number_witness :
  let r := GetNext (H := PlainURL.net_url) threePages
             (NewListServiceAuthorizationsPaginator (Some fromStart)) in
  let r5 := GetNext (H := PlainURL.net_url) threePages
              (NewListServiceAuthorizationsPaginator (Some fromPage5)) in
  emittedParam "page[number]" (clientAfter r) = Some "1"%string
  /\ emittedParam "page[number]"
       (clientAfter (GetNext (H := PlainURL.net_url) (clientAfter r) (paginatorAfter r)))
     = Some "2"%string
  /\ emittedParam "page[number]" (clientAfter r5) = Some "5"%string
  /\ emittedParam "page[number]"
       (clientAfter (GetNext (H := PlainURL.net_url) (clientAfter r5) (paginatorAfter r5)))
     = Some "6"%string.
Proof.
  intros r r5.
  destruct (C1_page_number (H := PlainURL.net_url) threePages
              (NewListServiceAuthorizationsPaginator (Some fromStart)) fromStart eq_refl)
    as (Hfirst & _ & _ & Hthen).
  destruct (C1_page_number (H := PlainURL.net_url) threePages
              (NewListServiceAuthorizationsPaginator (Some fromPage5)) fromPage5 eq_refl)
    as (_ & Hgiven & _ & Hthen5).
  split; [|split; [|split]].
  - apply Hfirst; [simpl; lia | reflexivity].
  - apply (Hthen []). reflexivity.
  - apply Hgiven; [reflexivity | simpl; lia].
  - apply (Hthen5 []). reflexivity.
Defined.

(** C5 as stated fails: with [PerPage] 500 the request carries
    [page[size]=500], which is more than 100. *)
Lemma C5_counterexample :
  ~ (exists v,
       emittedParam "page[size]"
         (clientAfter
            (GetNext (H := PlainURL.net_url) threePages
               (NewListServiceAuthorizationsPaginator
                  (Some {| PerPage := 500; Page := 0 |}))))
       = Some v
       /\ fst (strconv.Atoi v) <= 100).
Proof.
  intros (v & Hv & Hle). vm_compute in Hv. injection Hv as <-.
  vm_compute in Hle. by apply Hle.
Qed.

Lemma C5_page_size_not_capped_witness :
  exists n,
    emittedParam "page[size]"
      (clientAfter
         (GetNext (H := PlainURL.net_url) threePages
            (NewListServiceAuthorizationsPaginator
               (Some {| PerPage := 500; Page := 0 |}))))
    = Some (strconv.Itoa n)
    /\ n = 500.
Proof.
  destruct (C5_page_size_not_capped (H := PlainURL.net_url) threePages
              (NewListServiceAuthorizationsPaginator
                 (Some {| PerPage := 500; Page := 0 |}))
              {| PerPage := 500; Page := 0 |} eq_refl)
    as (n & Hsent & Hn & _).
  exists n. split; [exact Hsent | exact Hn].
Defined.

Lemma C6_page_size_witness :
  emittedParam "page[size]"
    (clientAfter (GetNext (H := PlainURL.net_url) threePages
                    (NewListServiceAuthorizationsPaginator (Some fromStart))))
  = Some "100"%string
  /\ emittedParam "page[size]"
       (clientAfter (GetNext (H := PlainURL.net_url) threePages
                       (NewListServiceAuthorizationsPaginator (Some fromPage5))))
     = Some "25"%string.
Proof.
  split.
  - apply (proj1 (C6_page_size (H := PlainURL.net_url) threePages
                    (NewListServiceAuthorizationsPaginator (Some fromStart))
                    fromStart eq_refl)).
    simpl. lia.
  - apply (proj1 (proj2 (C6_page_size (H := PlainURL.net_url) threePages
                           (NewListServiceAuthorizationsPaginator (Some fromPage5))
                           fromPage5 eq_refl))).
    simpl. lia.
Defined.

(** C4 as stated fails: after a first page that set [NextPage] to 2, a
    [next] link whose page is [abc] raises no error and leaves [NextPage]
    at 0, not at 2. *)
Lemma C4_counterexample :
  let r1 := GetNext (H := PlainURL.net_url) garbledSecondPage
              (NewListServiceAuthorizationsPaginator (Some fromStart)) in
  let r2 := GetNext (H := PlainURL.net_url) (clientAfter r1) (paginatorAfter r1) in
  nonNumericPage (H := PlainURL.net_url) (page "abc")
  /\ resultOf r2 = Returns ([], None)
  /\ NextPage (paginatorAfter r1) = 2
  /\ NextPage (paginatorAfter r2) <> NextPage (paginatorAfter r1).
Proof.
  intros r1 r2. split; [|split; [|split]].
  - split; [discriminate|].
    exists "page[number]=abc&page[size]=1"%string, "abc"%string, [].
    split; [|split]; vm_compute; reflexivity.
  - vm_compute. reflexivity.
  - vm_compute. reflexivity.
  - vm_compute. discriminate.
Qed.

Lemma C4_non_numeric_link_witness :
  let r1 := GetNext (H := PlainURL.net_url) garbledSecondPage
              (NewListServiceAuthorizationsPaginator (Some fromStart)) in
  let r2 := GetNext (H := PlainURL.net_url) (clientAfter r1) (paginatorAfter r1) in
  resultOf r2 = Returns ([], None) /\ NextPage (paginatorAfter r2) = 0.
Proof.
  intros r1 r2.
  refine (proj1 (C4_non_numeric_link (H := PlainURL.net_url)
                   (clientAfter r1) (paginatorAfter r1) fromStart
                   {| Links := {| First := ""; Last := page "3"; Next := page "abc" |} |}
                   [] eq_refl _) _ _).
  - exists (authorizationsBody (page "abc") (page "3")), [].
    split; [|split; [|split]]; reflexivity.
  - split; [discriminate|].
    exists "page[number]=abc&page[size]=1"%string, "abc"%string, [].
    split; [|split]; vm_compute; reflexivity.
  - right. exists 3. vm_compute. reflexivity.
Defined.

Lemma C7_last_page_reached_witness :
  let c := scripted [inr (authorizationsBody "" (page "1"))] in
  let r := GetNext (H := PlainURL.net_url) c
             (NewListServiceAuthorizationsPaginator (Some fromStart)) in
  resultOf r = Returns ([], None)
  /\ Remaining (paginatorAfter r) = 0
  /\ HasNext (paginatorAfter r) = false.
Proof.
  intros c r.
  refine (C7_last_page_reached (H := PlainURL.net_url) c
            (NewListServiceAuthorizationsPaginator (Some fromStart)) fromStart
            {| Links := {| First := ""; Last := page "1"; Next := "" |} |} []
            "page[number]=1&page[size]=1"%string "1"%string []
            eq_refl _ _ _ _ _ _).
  - exists (authorizationsBody "" (page "1")), [].
    split; [|split; [|split]]; reflexivity.
  - left. reflexivity.
  - discriminate.
  - vm_compute. reflexivity.
  - vm_compute. reflexivity.
  - vm_compute. reflexivity.
Defined.

Lemma C8_link_crash_witness :
  let unparsed := scripted [inr (authorizationsBody "://api.fastly.com" (page "3"))] in
  let noPage := scripted [inr (authorizationsBody (page "2")
                                 "https://api.fastly.com/service-authorizations?page[size]=1")] in
  resultOf (GetNext (H := PlainURL.net_url) unparsed
              (NewListServiceAuthorizationsPaginator (Some fromStart)))
  = Panics NilDereference
  /\ resultOf (GetNext (H := PlainURL.net_url) noPage
                 (NewListServiceAuthorizationsPaginator (Some fromStart)))
     = Panics IndexOutOfRange.
Proof.
  intros unparsed noPage. split.
  - refine (proj1 (proj2 (C8_link_crash (H := PlainURL.net_url) unparsed
             (NewListServiceAuthorizationsPaginator (Some fromStart)) fromStart
             {| Links := {| First := ""; Last := page "3"; Next := "://api.fastly.com" |} |}
             [] eq_refl _)) _).
    + exists (authorizationsBody "://api.fastly.com" (page "3")), [].
      split; [|split; [|split]]; reflexivity.
    + split; [discriminate | reflexivity].
  - refine (proj2 (proj2 (proj2 (proj2 (C8_link_crash (H := PlainURL.net_url) noPage
             (NewListServiceAuthorizationsPaginator (Some fromStart)) fromStart
             {| Links := {| First := "";
                            Last := "https://api.fastly.com/service-authorizations?page[size]=1";
                            Next := page "2" |} |}
             [] eq_refl _)))) _ _).
    + exists (authorizationsBody (page "2")
                "https://api.fastly.com/service-authorizations?page[size]=1"), [].
      split; [|split; [|split]]; reflexivity.
    + right. exists 2. vm_compute. reflexivity.
    + split; [discriminate|].
      exists "page[size]=1"%string. split; [|left]; vm_compute; reflexivity.
Defined.

(** C9 as stated fails: with [Page] at -1 the retry after a failed first
    call asks for page -1, not for page 0. *)
Lemma C9_counterexample :
  let i := {| PerPage := 0; Page := -1 |} in
  let r := GetNext (H := PlainURL.net_url) (scripted [unreachable])
             (NewListServiceAuthorizationsPaginator (Some i)) in
  Page i <= 0
  /\ resultOf r = Returns ([], Some (CollaboratorError "connection refused"))
  /\ CurrentPage (paginatorAfter r) = 1
  /\ consumed (paginatorAfter r) = false
  /\ emittedParam "page[number]"
       (clientAfter (GetNext (H := PlainURL.net_url) (clientAfter r) (paginatorAfter r)))
     = Some "-1"%string
  /\ emittedParam "page[number]"
       (clientAfter (GetNext (H := PlainURL.net_url) (clientAfter r) (paginatorAfter r)))
     <> Some "0"%string.
Proof.
  intros i r. split; [simpl; lia|].
  split; [vm_compute; reflexivity|].
  split; [vm_compute; reflexivity|].
  split; [vm_compute; reflexivity|].
  split; [vm_compute; reflexivity|].
  vm_compute. discriminate.
Qed.

Lemma C9_retry_after_error_witness :
  let r := GetNext (H := PlainURL.net_url) (scripted [unreachable])
             (NewListServiceAuthorizationsPaginator (Some fromStart)) in
  emittedParam "page[number]" (clientAfter r) = Some "1"%string
  /\ CurrentPage (paginatorAfter r) = 1
  /\ consumed (paginatorAfter r) = false
  /\ emittedParam "page[number]"
       (clientAfter (GetNext (H := PlainURL.net_url) (clientAfter r) (paginatorAfter r)))
     = Some "0"%string.
Proof.
  intros r.
  destruct (C9_retry_after_error (H := PlainURL.net_url) (scripted [unreachable])
              fromStart [] (CollaboratorError "connection refused")
              ltac:(simpl; lia) eq_refl)
    as (H1 & H2 & H3 & _ & H5).
  split; [exact H1 | split; [exact H2 | split; [exact H3 | exact (H5 eq_refl)]]].
Defined.

Lemma C10_later_error_dropped_witness :
  exists c',
    GetWAFRuleStatuses 3 droppingStatuses statusesInput
    = Some (c',
            {| Rules := [ {| RuleID := 1; WAFID := "waf"; StatusID := "a"; Status := "log" |};
                          {| RuleID := 2; WAFID := "waf"; StatusID := "b"; Status := "log" |} ];
               Response_Links := paginationInfo_zero |},
            Returns None).
Proof.
  eexists.
  apply (C10_later_error_dropped droppingStatuses _ statusesInput 1
           ([ {| RuleID := 1; WAFID := "waf"; StatusID := "a"; Status := "log" |} ]
            ++ [ {| RuleID := 2; WAFID := "waf"; StatusID := "b"; Status := "log" |} ]
            ++ [])
           (CollaboratorError "connection refused")).
  - discriminate.
  - discriminate.
  - eapply failsAfter_later.
    + eexists _, _. split; [|split; [|split; [|split]]]; reflexivity.
    + discriminate.
    + eapply failsAfter_later.
      * eexists _, _. split; [|split; [|split; [|split]]]; reflexivity.
      * discriminate.
      * apply failsAfter_now, fails_transport. reflexivity.
  - lia.
Defined.

(** ** More about the paginator *)

Lemma sub_zero_iff (a b : Z) :
  GoInt.in_range a -> GoInt.in_range b -> GoInt.sub a b = 0 <-> a = b.
Proof.
  unfold GoInt.in_range, GoInt.minInt, GoInt.maxInt, GoInt.sub, GoInt.wrap.
  intros Ha Hb. split; [|intros ->; by rewrite Z.sub_diag].
  intros Hz.
  pose proof (Z.div_mod (a - b + 2 ^ 63) (2 ^ 64) ltac:(lia)) as Hdm.
  pose proof (Z.mod_pos_bound (a - b + 2 ^ 63) (2 ^ 64) ltac:(lia)) as Hbound.
  lia.
Qed.

Lemma Atoi_range (s : string) :
  snd (strconv.Atoi s) = Some strconv.ErrRange ->
  fst (strconv.Atoi s) = GoInt.maxInt \/ fst (strconv.Atoi s) = GoInt.minInt.
Proof.
  unfold strconv.Atoi, strconv.ParseInt.
  destruct s as [|ch s]; [discriminate|].
  destruct (strconv.ParseUint _) as [un [[]|]]; simpl; try discriminate;
    repeat (case_match; simpl); try discriminate; intros _;
    first [by left | by right].
Qed.

Section MorePaginator.

Context `{NetURL}.

Lemma pageRequest_at (i : ListServiceAuthorizationsInput)
  (p : ListServiceAuthorizationsPaginator) :
  pageRequest i p = pageRequestAt i (pageFor i p).
Proof. reflexivity. Qed.

Lemma succeeds_consumed (n : nat) (c c' : Client)
  (p p' : ListServiceAuthorizationsPaginator) (i : ListServiceAuthorizationsInput) :
  succeeds n c p c' p' ->
  options p = Some i ->
  consumed p = true ->
  GoInt.minInt <= CurrentPage p ->
  CurrentPage p + Z.of_nat n <= GoInt.maxInt ->
  sent c' = sent c
            ++ map (fun k => pageRequestAt i (CurrentPage p + 1 + Z.of_nat k)) (seq 0 n)
  /\ CurrentPage p' = CurrentPage p + Z.of_nat n
  /\ consumed p' = true
  /\ options p' = Some i.
Proof.
  induction 1 as [c p | n c p c' p' s Hs Hrun IH]; intros Hi Hc Hmin Hmax.
  - simpl. rewrite app_nil_r. repeat split; [lia | done..].
  - unfold GetNext in *. rewrite Hi in *.
    assert (Hpage : pageFor i p = CurrentPage p + 1).
    { rewrite pageFor_consumed by done. apply add_exact.
      unfold GoInt.in_range. lia. }
    destruct IH as (Hsent & Hcur & Hcons & Hopt).
    + by rewrite call_options.
    + by apply (call_success_consumed c i p s).
    + rewrite call_CurrentPage. lia.
    + rewrite call_CurrentPage. lia.
    + rewrite call_sent, call_CurrentPage, pageRequest_at, Hpage in *.
      split; [|split; [lia | done]].
      rewrite Hsent, <- app_assoc. f_equal. simpl. f_equal.
      * f_equal. lia.
      * rewrite <- seq_shift, map_map. apply map_ext. intros k. f_equal. lia.
Qed.

(** X1: [n] successful calls on a new paginator send [n] requests, for the
    pages [first], [first + 1], ... in this order and all with the same page
    size, where [first] is 1 when [Page <= 0] and [Page] otherwise; the
    paginator ends on the last of them. *)
Theorem X1_pages_in_order (n : nat) (c c' : Client)
  (p' : ListServiceAuthorizationsPaginator) (i : ListServiceAuthorizationsInput) :
  succeeds n c (NewListServiceAuthorizationsPaginator (Some i)) c' p' ->
  firstPage i + Z.of_nat n - 1 <= GoInt.maxInt ->
  sent c' = sent c ++ map (fun k => pageRequestAt i (firstPage i + Z.of_nat k)) (seq 0 n)
  /\ ((0 < n)%nat -> CurrentPage p' = firstPage i + Z.of_nat n - 1).
Proof.
  intros Hrun Hmax.
  inversion Hrun as [| m c0 p0 c0' p0' s Hs Hrest]; subst.
  - simpl. rewrite app_nil_r. split; [done | lia].
  - set (p0 := NewListServiceAuthorizationsPaginator (Some i)) in *.
    change (GetNext c p0) with (listServiceAuthorizationsWithPage c (Some i) p0) in *.
    assert (Hfirst : pageFor i p0 = firstPage i).
    { unfold pageFor, firstPage. simpl. by destruct (Page i <=? 0). }
    assert (H1 : 1 <= firstPage i).
    { unfold firstPage. destruct (Z.leb_spec (Page i) 0); lia. }
    destruct (succeeds_consumed _ _ _ _ _ i Hrest) as (Hsent & Hcur & _).
    + by rewrite call_options.
    + by apply (call_success_consumed c i p0 s).
    + rewrite call_CurrentPage, Hfirst. unfold GoInt.minInt. lia.
    + rewrite call_CurrentPage, Hfirst. lia.
    + rewrite call_sent, call_CurrentPage, pageRequest_at, Hfirst in *.
      split; [|intros _; lia].
      rewrite Hsent, <- app_assoc. f_equal. simpl. f_equal.
      * f_equal. lia.
      * rewrite <- seq_shift, map_map. apply map_ext. intros k. f_equal. lia.
Qed.

(** X2: a consumed paginator moves on even when the call fails.  After a
    call that returns an error, [CurrentPage] is one further and the next
    call asks for the page after it: the page whose fetch failed is not
    asked for again. *)
Theorem X2_failed_page_skipped (c : Client) (p : ListServiceAuthorizationsPaginator)
  (i : ListServiceAuthorizationsInput) (s : list ServiceAuthorization) (e : error) :
  options p = Some i ->
  consumed p = true ->
  GoInt.minInt <= CurrentPage p ->
  CurrentPage p + 2 <= GoInt.maxInt ->
  resultOf (GetNext c p) = Returns (s, Some e) ->
  emittedParam "page[number]" (clientAfter (GetNext c p))
  = Some (strconv.Itoa (CurrentPage p + 1))
  /\ CurrentPage (paginatorAfter (GetNext c p)) = CurrentPage p + 1
  /\ emittedParam "page[number]"
       (clientAfter (GetNext (clientAfter (GetNext c p)) (paginatorAfter (GetNext c p))))
     = Some (strconv.Itoa (CurrentPage p + 2)).
Proof.
  intros Hi Hc Hmin Hmax Hr.
  assert (HG : GetNext c p = listServiceAuthorizationsWithPage c (Some i) p)
    by (unfold GetNext; by rewrite Hi).
  rewrite HG in *. unfold GetNext. rewrite call_options, Hi.
  rewrite (call_error_state _ _ _ _ _ Hr), !call_emits_number.
  assert (H1 : pageFor i p = CurrentPage p + 1).
  { rewrite pageFor_consumed by done. apply add_exact. unfold GoInt.in_range. lia. }
  assert (H2 : pageFor i (set_CurrentPage (pageFor i p) p) = CurrentPage p + 2).
  { rewrite pageFor_consumed by done. simpl. rewrite H1.
    rewrite add_exact by (unfold GoInt.in_range; lia). lia. }
  by rewrite H2, H1.
Qed.

(** X3: a call that returns an error has sent exactly one request and has
    changed no field of the paginator but [CurrentPage]. *)
Theorem X3_error_leaves_cursor (c : Client) (p : ListServiceAuthorizationsPaginator)
  (i : ListServiceAuthorizationsInput) (s : list ServiceAuthorization) (e : error) :
  options p = Some i ->
  resultOf (GetNext c p) = Returns (s, Some e) ->
  length (sent (clientAfter (GetNext c p))) = S (length (sent c))
  /\ s = []
  /\ consumed (paginatorAfter (GetNext c p)) = consumed p
  /\ NextPage (paginatorAfter (GetNext c p)) = NextPage p
  /\ LastPage (paginatorAfter (GetNext c p)) = LastPage p
  /\ options (paginatorAfter (GetNext c p)) = options p.
Proof.
  intros Hi Hr.
  assert (HG : GetNext c p = listServiceAuthorizationsWithPage c (Some i) p)
    by (unfold GetNext; by rewrite Hi).
  rewrite HG in *. rewrite call_sent, length_app, (call_error_state _ _ _ _ _ Hr).
  simpl. split; [lia|]. split; [|done].
  revert Hr. clear. unfold listServiceAuthorizationsWithPage, followLink, Client_Get, resultOf.
  repeat (case_match; simplify_eq /=; try done); by intros [= <- _].
Qed.

(** X4: a response without a [next] and without a [last] link leaves
    [NextPage] and [LastPage] as they were.  On a paginator whose
    [LastPage] is still 0, a new one for instance, the listing is over
    after that call: [HasNext] is false. *)
Theorem X4_no_links (c : Client) (p : ListServiceAuthorizationsPaginator)
  (i : ListServiceAuthorizationsInput) (info : infoResponse)
  (s : list ServiceAuthorization) :
  options p = Some i ->
  responds c i p info s ->
  Next (Links info) = EmptyString ->
  Last (Links info) = EmptyString ->
  resultOf (GetNext c p) = Returns (s, None)
  /\ NextPage (paginatorAfter (GetNext c p)) = NextPage p
  /\ LastPage (paginatorAfter (GetNext c p)) = LastPage p
  /\ (LastPage p = 0 -> HasNext (paginatorAfter (GetNext c p)) = false).
Proof.
  intros Hi Hr Hn Hl. unfold GetNext.
  rewrite Hi, (call_responds _ _ _ _ _ Hr), Hn, Hl. cbv zeta.
  rewrite !followLink_absent.
  repeat split. intros H0. unfold HasNext, Remaining. simpl. by rewrite H0.
Qed.

(** X5: [Remaining] is 0 exactly when [LastPage] is 0 or equals
    [CurrentPage].  So a consumed paginator reports no next page only in
    these two cases: one that has run past [LastPage] still has
    [HasNext] true. *)
Theorem X5_stops_only_on_last (p : ListServiceAuthorizationsPaginator) :
  GoInt.in_range (LastPage p) ->
  GoInt.in_range (CurrentPage p) ->
  (Remaining p = 0 <-> LastPage p = 0 \/ LastPage p = CurrentPage p)
  /\ (consumed p = true ->
      (HasNext p = false <-> LastPage p = 0 \/ LastPage p = CurrentPage p))
  /\ (consumed p = true -> 0 < LastPage p -> LastPage p < CurrentPage p ->
      HasNext p = true /\ Remaining p < 0).
Proof.
  intros Hl Hc.
  assert (Hrem : Remaining p = 0 <-> LastPage p = 0 \/ LastPage p = CurrentPage p).
  { unfold Remaining. destruct (Z.eqb_spec (LastPage p) 0) as [H0|H0].
    - split; [by left | done].
    - rewrite (sub_zero_iff _ _ Hl Hc). split; [by right | by intros [?|?]]. }
  split; [exact Hrem|]. split.
  - intros Hcons. rewrite <- Hrem. unfold HasNext. rewrite Hcons. simpl.
    destruct (Z.eqb_spec (Remaining p) 0); split; done.
  - intros Hcons H0 Hlt.
    assert (Hneg : Remaining p < 0).
    { unfold Remaining. destruct (Z.eqb_spec (LastPage p) 0); [lia|].
      rewrite sub_exact; unfold GoInt.in_range, GoInt.minInt, GoInt.maxInt in *; lia. }
    split; [|exact Hneg].
    unfold HasNext. rewrite Hcons. simpl.
    destruct (Z.eqb_spec (Remaining p) 0); [lia | done].
Qed.

End MorePaginator.

Section MoreLinks.

Context `{NetURL}.

Lemma linkPageNumber_value (l v : string) :
  pageValue l v -> linkPageNumber l = Returns (fst (strconv.Atoi v)).
Proof.
  intros (_ & u & vs & Hu & Hq). unfold linkPageNumber. by rewrite Hu, Hq.
Qed.

Lemma pageValue_harmless (l v : string) : pageValue l v -> harmless l.
Proof. intros Hv. right. eexists. by apply linkPageNumber_value. Qed.

(** X6: [NextPage] is written and never read.  Whatever it holds, the
    call sends the same request and returns the same result, leaves the
    same [CurrentPage], [LastPage] and [consumed], and [HasNext] and
    [Remaining] answer the same. *)
Theorem X6_NextPage_unused (c : Client) (p : ListServiceAuthorizationsPaginator) (n : Z) :
  clientAfter (GetNext c (set_NextPage n p)) = clientAfter (GetNext c p)
  /\ resultOf (GetNext c (set_NextPage n p)) = resultOf (GetNext c p)
  /\ CurrentPage (paginatorAfter (GetNext c (set_NextPage n p)))
     = CurrentPage (paginatorAfter (GetNext c p))
  /\ LastPage (paginatorAfter (GetNext c (set_NextPage n p)))
     = LastPage (paginatorAfter (GetNext c p))
  /\ consumed (paginatorAfter (GetNext c (set_NextPage n p)))
     = consumed (paginatorAfter (GetNext c p))
  /\ HasNext (set_NextPage n p) = HasNext p
  /\ Remaining (set_NextPage n p) = Remaining p.
Proof.
  destruct p as [cons cur nxt lst [i|]]; [|done].
  unfold GetNext, listServiceAuthorizationsWithPage, Client_Get,
    clientAfter, paginatorAfter, resultOf. simpl.
  destruct ((Page i <=? 0) && (cur =? 0)), (negb cons); simpl;
    (destruct (transport c _ _) as [e|body]; [done|]);
    (destruct (body_info body) as [e|info]; [done|]);
    (destruct (body_authorizations body) as [e|data]; [done|]);
    (destruct (assertAuthorizations data) as [e|s]; [done|]);
    unfold followLink;
    destruct (String.eqb (Next (Links info)) ""), (String.eqb (Last (Links info)) "");
    simpl; try done;
    repeat (destruct (linkPageNumber _); simpl; try done).
Qed.

(** X7: the numbers the links carry are the numbers stored.  When the
    [next] link names page [n] and the [last] link page [m], both as
    decimal numerals, the call succeeds with [NextPage] at [n] and
    [LastPage] at [m]. *)
Theorem X7_link_numbers_stored (c : Client) (p : ListServiceAuthorizationsPaginator)
  (i : ListServiceAuthorizationsInput) (info : infoResponse)
  (s : list ServiceAuthorization) (n m : Z) :
  options p = Some i ->
  responds c i p info s ->
  pageValue (Next (Links info)) (strconv.Itoa n) ->
  pageValue (Last (Links info)) (strconv.Itoa m) ->
  GoInt.in_range n ->
  GoInt.in_range m ->
  resultOf (GetNext c p) = Returns (s, None)
  /\ NextPage (paginatorAfter (GetNext c p)) = n
  /\ LastPage (paginatorAfter (GetNext c p)) = m.
Proof.
  intros Hi Hr Hn Hm Hnr Hmr. unfold GetNext.
  rewrite Hi, (call_responds _ _ _ _ _ Hr). cbv zeta.
  rewrite (followLink_present _ _ _ (proj1 Hn)), (linkPageNumber_value _ _ Hn).
  rewrite (followLink_present _ _ _ (proj1 Hm)), (linkPageNumber_value _ _ Hm).
  by rewrite !Atoi_Itoa.
Qed.

(** X8: a page number too large for an [int] is no error either.  The
    call succeeds and [LastPage] holds the bound [Atoi] clamps to, the
    largest or the smallest [int]. *)
Theorem X8_overflowing_page_clamped (c : Client)
  (p : ListServiceAuthorizationsPaginator) (i : ListServiceAuthorizationsInput)
  (info : infoResponse) (s : list ServiceAuthorization) (v : string) :
  options p = Some i ->
  responds c i p info s ->
  harmless (Next (Links info)) ->
  pageValue (Last (Links info)) v ->
  snd (strconv.Atoi v) = Some strconv.ErrRange ->
  resultOf (GetNext c p) = Returns (s, None)
  /\ (LastPage (paginatorAfter (GetNext c p)) = GoInt.maxInt
      \/ LastPage (paginatorAfter (GetNext c p)) = GoInt.minInt).
Proof.
  intros Hi Hr Hn Hl Hv. unfold GetNext.
  rewrite Hi, (call_responds _ _ _ _ _ Hr). cbv zeta.
  destruct (followLink_harmless _ set_NextPage
              (set_CurrentPage (pageFor i p) p) Hn) as (p' & -> & _).
  rewrite (followLink_present _ _ _ (proj1 Hl)), (linkPageNumber_value _ _ Hl).
  split; [reflexivity|]. by apply Atoi_range.
Qed.

End MoreLinks.

(** ** The other calls of [service_authorization.go] *)

Lemma assertAuthorizations_all (s : list ServiceAuthorization) :
  assertAuthorizations (map IServiceAuthorization s) = inr s.
Proof. induction s as [|sa s IH]; simpl; [done | by rewrite IH]. Qed.

(** X9: the copy loop succeeds exactly on a payload made of
    authorizations only and then returns them all, in order; otherwise the
    error names the dynamic type of the first element that is none. *)
Theorem X9_assertAuthorizations (data : list iface) :
  (forall s, assertAuthorizations data = inr s <-> data = map IServiceAuthorization s)
  /\ (forall s v rest,
        data = map IServiceAuthorization s ++ v :: rest ->
        (forall sa, v <> IServiceAuthorization sa) ->
        assertAuthorizations data
        = inl (Errorf ("unexpected response type: " +:+ typeName v))).
Proof.
  split.
  - intros s. split; [|intros ->; apply assertAuthorizations_all].
    revert s. induction data as [|v data IH]; intros s; simpl.
    + by intros [= <-].
    + destruct v as [sa| |]; try discriminate.
      destruct (assertAuthorizations data) as [e|s']; [discriminate|].
      intros [= <-]. simpl. f_equal. by apply IH.
  - intros s v rest -> Hv. induction s as [|sa s IH]; simpl.
    + destruct v as [sa| |]; [by destruct (Hv sa) | done..].
    + by rewrite IH.
Qed.

(** X10: [ListServiceAuthorizations] sends one GET to
    [/service-authorizations] with the [Accept] header and no query
    parameter at all, whatever its input, nil included; when the payload
    holds authorizations only it returns every one of them. *)
Theorem X10_list_sends_no_parameters (c : Client)
  (i : option ListServiceAuthorizationsInput) :
  sent (fst (ListServiceAuthorizations c i)) = sent c ++ [listRequest]
  /\ (forall key, emittedParam key (fst (ListServiceAuthorizations c i)) = None)
  /\ (forall body s,
        transport c (sent c) listRequest = inr body ->
        body_authorizations body = inr (map IServiceAuthorization s) ->
        snd (ListServiceAuthorizations c i) = (s, None))
  /\ (forall err,
        transport c (sent c) listRequest = inl err ->
        snd (ListServiceAuthorizations c i) = ([], Some err)).
Proof.
  assert (Hsent : sent (fst (ListServiceAuthorizations c i)) = sent c ++ [listRequest]).
  { unfold ListServiceAuthorizations, Client_Get. simpl.
    repeat (case_match; simplify_eq /=; try done). }
  split; [exact Hsent|]. split; [|split].
  - intros key. unfold emittedParam. rewrite Hsent, last_snoc. simpl.
    apply lookup_empty.
  - intros body s Hb Hd. unfold ListServiceAuthorizations, Client_Get. simpl.
    change {| req_path := "/service-authorizations"; req_options := _ |}
      with listRequest.
    by rewrite Hb, Hd, assertAuthorizations_all.
  - intros err Hb. unfold ListServiceAuthorizations, Client_Get. simpl.
    change {| req_path := "/service-authorizations"; req_options := _ |}
      with listRequest.
    by rewrite Hb.
Qed.

Section SingleResourceFacts.

Context `{Collaborators}.

(** X11: none of the four single-resource calls touches the network on an
    input it rejects: with an empty identifier the client comes back as it
    was, together with the error. *)
Theorem X11_rejected_input_sends_nothing (c : Client) :
  (forall i, Get_ID i = EmptyString ->
     GetServiceAuthorization c i = (c, (None, Some ErrMissingID)))
  /\ (forall i, Delete_ID i = EmptyString ->
        DeleteServiceAuthorization c i = (c, Some ErrMissingID))
  /\ (forall i, Update_ID i = EmptyString \/ Update_Permissions i = EmptyString ->
        fst (UpdateServiceAuthorization c i) = c
        /\ fst (snd (UpdateServiceAuthorization c i)) = None
        /\ is_Some (snd (snd (UpdateServiceAuthorization c i))))
  /\ (forall i, noService i = true \/ noUser i = true ->
        fst (CreateServiceAuthorization c i) = c
        /\ fst (snd (CreateServiceAuthorization c i)) = None
        /\ is_Some (snd (snd (CreateServiceAuthorization c i)))).
Proof.
  split; [|split; [|split]].
  - intros i Hi. unfold GetServiceAuthorization. by rewrite Hi.
  - intros i Hi. unfold DeleteServiceAuthorization. by rewrite Hi.
  - intros i Hi. unfold UpdateServiceAuthorization.
    destruct (String.eqb_spec (Update_ID i) ""); [by eauto|].
    destruct (String.eqb_spec (Update_Permissions i) ""); [by eauto|].
    by destruct Hi.
  - intros i Hi. unfold CreateServiceAuthorization.
    destruct (noService i); [by eauto|].
    destruct (noUser i); [by eauto|].
    by destruct Hi.
Qed.

(** X12: [CreateServiceAuthorization] checks the service before the user.
    A missing service (nil, or with an empty ID) is the error reported even
    when the user is missing too; a missing user is reported only when the
    service is there. *)
Theorem X12_create_checks_service_first (c : Client)
  (i : CreateServiceAuthorizationInput) :
  (noService i = true ->
   snd (snd (CreateServiceAuthorization c i))
   = Some ErrMissingServiceAuthorizationsService)
  /\ (noService i = false -> noUser i = true ->
      snd (snd (CreateServiceAuthorization c i))
      = Some ErrMissingServiceAuthorizationsUser)
  /\ (noService i = false -> noUser i = false ->
      CreateServiceAuthorization c i
      = decodeAuthorization (PostJSONAPI _ c "/service-authorizations" i None)).
Proof.
  unfold CreateServiceAuthorization.
  split; [|split]; intros Hs; rewrite Hs; try done; by intros ->.
Qed.

(** X13: [UpdateServiceAuthorization] checks the ID before the
    permissions: an empty ID is the error reported even when the
    permissions are empty too. *)
Theorem X13_update_checks_id_first (c : Client) (i : UpdateServiceAuthorizationInput) :
  (Update_ID i = EmptyString ->
   snd (snd (UpdateServiceAuthorization c i)) = Some ErrMissingID)
  /\ (Update_ID i <> EmptyString -> Update_Permissions i = EmptyString ->
      snd (snd (UpdateServiceAuthorization c i)) = Some ErrMissingPermissions)
  /\ (Update_ID i <> EmptyString -> Update_Permissions i <> EmptyString ->
      UpdateServiceAuthorization c i
      = decodeAuthorization
          (PatchJSONAPI _ c ("/service-authorizations/" +:+ Update_ID i) i None)).
Proof.
  unfold UpdateServiceAuthorization.
  split; [|split].
  - by intros ->.
  - intros Hi Hp. destruct (String.eqb_spec (Update_ID i) ""); [done|]. by rewrite Hp.
  - intros Hi Hp. destruct (String.eqb_spec (Update_ID i) ""); [done|].
    by destruct (String.eqb_spec (Update_Permissions i) "").
Qed.

(** X14: a lookup by ID sends one GET to [/service-authorizations/ID]
    without options, and a delete reports the error of the DELETE and
    nothing else: whatever the response holds, a DELETE that went through
    returns nil. *)
Theorem X14_get_and_delete (c : Client) (id : string) :
  id <> EmptyString ->
  sent (fst (GetServiceAuthorization c {| Get_ID := id |}))
  = sent c ++ [ {| req_path := "/service-authorizations/" +:+ id;
                   req_options := None |} ]
  /\ (forall body,
        snd (Client_Delete c ("/service-authorizations/" +:+ id) None) = inr body ->
        snd (DeleteServiceAuthorization c {| Delete_ID := id |}) = None)
  /\ (forall err,
        snd (Client_Delete c ("/service-authorizations/" +:+ id) None) = inl err ->
        snd (DeleteServiceAuthorization c {| Delete_ID := id |}) = Some err).
Proof.
  intros Hid. unfold GetServiceAuthorization, DeleteServiceAuthorization. simpl.
  destruct (String.eqb_spec id ""); [done|]. split; [|split].
  - unfold decodeAuthorization, Client_Get.
    repeat (case_match; simplify_eq /=; try done).
  - intros body Hb. destruct (Client_Delete _ _ _) as [c' r]. simpl in *. by subst r.
  - intros err Hb. destruct (Client_Delete _ _ _) as [c' r]. simpl in *. by subst r.
Qed.

End SingleResourceFacts.

(** ** [formatFilters] *)

Lemma lookup_filterString (key value k : string) (m : gmap string string) :
  filterString key value m !! k
  = from_option Some (m !! k) (if decide (k = key) then sentString value else None).
Proof.
  unfold filterString, sentString. destruct (String.eqb value "");
    case_decide; subst; by rewrite ?lookup_insert_eq, ?lookup_insert_ne.
Qed.

Lemma lookup_filterInt (key : string) (value : Z) (k : string) (m : gmap string string) :
  filterInt key value m !! k
  = from_option Some (m !! k) (if decide (k = key) then sentInt value else None).
Proof.
  unfold filterInt, sentInt. destruct (value =? 0);
    case_decide; subst; by rewrite ?lookup_insert_eq, ?lookup_insert_ne.
Qed.

Lemma lookup_filterInts (key : string) (values : list Z) (k : string)
  (m : gmap string string) :
  filterInts key values m !! k
  = from_option Some (m !! k) (if decide (k = key) then sentInts values else None).
Proof.
  unfold filterInts, sentInts. destruct values;
    case_decide; subst; by rewrite ?lookup_insert_eq, ?lookup_insert_ne.
Qed.

(** The value of any key, as one cascade over the twelve filters. *)
Lemma formatFilters_lookup (i : GetWAFRuleStatusesInput) (k : string) :
  formatFilters i !! k
  = let f := Filters i in
    if decide (k = "page[number]"%string) then sentInt (Filter_Page f)
    else if decide (k = "page[size]"%string) then sentInt (Filter_MaxResults f)
    else if decide (k = "include"%string) then sentInts (Filter_Tags f)
    else if decide (k = "filter[rule][version]"%string) then sentString (Filter_Version f)
    else if decide (k = "filter[rule][tags][name]"%string) then sentString (Filter_TagName f)
    else if decide (k = "filter[rule][tags]"%string) then sentInt (Filter_TagID f)
    else if decide (k = "filter[rule][rule_id]"%string) then sentString (Filter_RuleID f)
    else if decide (k = "filter[rule][revision]"%string) then sentInt (Filter_Revision f)
    else if decide (k = "filter[rule][message]"%string) then sentString (Filter_Message f)
    else if decide (k = "filter[rule][maturity]"%string) then sentInt (Filter_Maturity f)
    else if decide (k = "filter[rule][accuracy]"%string) then sentInt (Filter_Accuracy f)
    else if decide (k = "filter[status]"%string) then sentString (Filter_Status f)
    else None.
Proof.
  unfold formatFilters. cbv zeta.
  repeat first [rewrite lookup_filterInt | rewrite lookup_filterInts
               | rewrite lookup_filterString].
  rewrite lookup_empty.
  repeat (case_decide; simplify_eq /=; try done);
    repeat (case_match; simplify_eq /=; try done);
    match goal with |- from_option Some None ?o = ?o => by destruct o end.
Qed.

(** X15: what [formatFilters] sends for each filter.  A string filter is
    sent as it is, an integer filter as its decimal numeral and the tags as
    their numerals joined by commas; a filter at its zero value (the empty
    string, 0, no tag) is not sent at all. *)
Theorem X15_formatFilters_values (i : GetWAFRuleStatusesInput) :
  let f := Filters i in
  let sent := formatFilters i in
  sent !! "filter[status]"%string = sentString (Filter_Status f)
  /\ sent !! "filter[rule][accuracy]"%string = sentInt (Filter_Accuracy f)
  /\ sent !! "filter[rule][maturity]"%string = sentInt (Filter_Maturity f)
  /\ sent !! "filter[rule][message]"%string = sentString (Filter_Message f)
  /\ sent !! "filter[rule][revision]"%string = sentInt (Filter_Revision f)
  /\ sent !! "filter[rule][rule_id]"%string = sentString (Filter_RuleID f)
  /\ sent !! "filter[rule][tags]"%string = sentInt (Filter_TagID f)
  /\ sent !! "filter[rule][tags][name]"%string = sentString (Filter_TagName f)
  /\ sent !! "filter[rule][version]"%string = sentString (Filter_Version f)
  /\ sent !! "include"%string = sentInts (Filter_Tags f)
  /\ sent !! "page[size]"%string = sentInt (Filter_MaxResults f)
  /\ sent !! "page[number]"%string = sentInt (Filter_Page f).
Proof.
  cbv zeta. repeat split; rewrite formatFilters_lookup; reflexivity.
Qed.

Lemma sentString_None (v : string) : sentString v = None <-> v = EmptyString.
Proof. unfold sentString. by destruct (String.eqb_spec v ""). Qed.

Lemma sentInt_None (v : Z) : sentInt v = None <-> v = 0.
Proof. unfold sentInt. by destruct (Z.eqb_spec v 0). Qed.

Lemma sentInts_None (vs : list Z) : sentInts vs = None <-> vs = [].
Proof. by destruct vs. Qed.

(** X16: [formatFilters] sends no key but its twelve, and it sends no
    parameter at all exactly when every filter is at its zero value. *)
Theorem X16_formatFilters_keys (i : GetWAFRuleStatusesInput) :
  (forall k v, formatFilters i !! k = Some v -> k ∈ filterKeys)
  /\ (formatFilters i = ∅ <-> Filters i = noFilters).
Proof.
  split.
  - intros k v. rewrite formatFilters_lookup. cbv zeta. unfold filterKeys.
    repeat (case_decide; [subst; intros _; set_solver|]). discriminate.
  - split.
    + intros Hempty.
      assert (Hk : forall k, formatFilters i !! k = None)
        by (intros k; by rewrite Hempty, lookup_empty).
      pose proof (Hk "filter[status]"%string) as H1.
      pose proof (Hk "filter[rule][accuracy]"%string) as H2.
      pose proof (Hk "filter[rule][maturity]"%string) as H3.
      pose proof (Hk "filter[rule][message]"%string) as H4.
      pose proof (Hk "filter[rule][revision]"%string) as H5.
      pose proof (Hk "filter[rule][rule_id]"%string) as H6.
      pose proof (Hk "filter[rule][tags]"%string) as H7.
      pose proof (Hk "filter[rule][tags][name]"%string) as H8.
      pose proof (Hk "filter[rule][version]"%string) as H9.
      pose proof (Hk "include"%string) as H10.
      pose proof (Hk "page[size]"%string) as H11.
      pose proof (Hk "page[number]"%string) as H12.
      clear Hk Hempty.
      rewrite formatFilters_lookup in H1, H2, H3, H4, H5, H6, H7, H8, H9, H10, H11, H12.
      cbv zeta in *. simpl in *.
      rewrite sentString_None in H1, H4, H6, H8, H9.
      rewrite sentInt_None in H2, H3, H5, H7, H11, H12.
      rewrite sentInts_None in H10.
      destruct (Filters i); simpl in *; subst; reflexivity.
    + intros Hz. apply map_eq. intros k.
      rewrite formatFilters_lookup, Hz, lookup_empty. cbv zeta. simpl.
      by repeat case_decide.
Qed.

(** ** More about the walk over rule statuses *)

Lemma appendStatuses_app (good rest : list iface) (rs rules : list WAFRuleStatus) :
  statusesOf good = Some rs ->
  appendStatuses (good ++ rest) rules = appendStatuses rest (rules ++ rs).
Proof.
  revert rs rules. induction good as [|v good IH]; intros rs rules; simpl.
  - intros [= <-]. by rewrite app_nil_r.
  - destruct v as [| typed |]; try discriminate.
    destruct (simplify typed) as [r|]; [|discriminate].
    destruct (statusesOf good) as [rs'|]; [|discriminate].
    intros [= <-]. rewrite (IH rs' (rules ++ [r]) eq_refl).
    by rewrite <- app_assoc.
Qed.

Lemma appendStatuses_grows (data : list iface) (rules : list WAFRuleStatus) :
  exists more, fst (appendStatuses data rules) = rules ++ more.
Proof.
  revert rules. induction data as [|v data IH]; intros rules; simpl.
  - exists []. by rewrite app_nil_r.
  - destruct v as [| typed |]; try (exists []; by rewrite app_nil_r).
    destruct (simplify typed) as [r|]; [|exists []; by rewrite app_nil_r].
    destruct (IH (rules ++ [r])) as [more ->].
    exists (r :: more). by rewrite <- app_assoc.
Qed.

(** One page that decodes, unfolded. *)
Lemma fetch_page (fuel : nat) (c : Client) (answer : GetWAFRuleStatusesResponse)
  (path : string) (filters : option RequestOptions) (body : Body) (data : list iface) :
  transport c (sent c) (getRequest path filters) = inr body ->
  body_readAll body = None ->
  body_statuses body = inr data ->
  fetchWAFRuleStatusesPage (S fuel) c answer path filters
  = match appendStatuses data (Rules answer) with
    | (rules, Panics why) =>
        Some (afterGet c path filters, set_Rules rules answer, Panics why)
    | (rules, Returns (Some err)) =>
        Some (afterGet c path filters, set_Rules rules answer, Returns (Some err))
    | (rules, Returns None) =>
        if String.eqb (Next (body_links body)) "" then
          Some (afterGet c path filters, set_Rules rules answer, Returns None)
        else
          match fetchWAFRuleStatusesPage fuel (afterGet c path filters)
                  (set_Rules rules answer) (Next (body_links body)) filters with
          | None => None
          | Some (c', answer', Panics why) => Some (c', answer', Panics why)
          | Some (c', answer', Returns _) => Some (c', answer', Returns None)
          end
    end.
Proof.
  intros Hb Hr Hd. unfold afterGet, getRequest in *. simpl.
  rewrite Hb. unfold getPages. by rewrite Hr, Hd.
Qed.

Lemma fetch_endsAfter (filters : option RequestOptions) (n : nat) (c c' : Client)
  (path : string) (rules : list WAFRuleStatus) :
  endsAfter filters n c path rules c' ->
  forall (fuel : nat) (answer : GetWAFRuleStatusesResponse),
    (n <= fuel)%nat ->
    fetchWAFRuleStatusesPage fuel c answer path filters
    = Some (c', set_Rules (Rules answer ++ rules) answer, Returns None)
    /\ length (sent c') = (length (sent c) + n)%nat.
Proof.
  induction 1 as [c path rs Hg | n c path rs next rules c' Hg Hnext Hw IH];
    intros fuel answer Hfuel; (destruct fuel as [|fuel]; [lia|]);
    destruct Hg as (body & data & Hb & Hr & Hd & Hs & Hn);
    rewrite (fetch_page _ _ _ _ _ _ _ Hb Hr Hd), (appendStatuses_all _ _ _ Hs), Hn.
  - simpl. split; [done|]. rewrite length_app. simpl. lia.
  - destruct (String.eqb_spec next ""); [done|].
    destruct (IH fuel (set_Rules (Rules answer ++ rs) answer)) as [-> Hlen]; [lia|].
    simpl. rewrite <- app_assoc. split; [done|].
    rewrite Hlen. unfold afterGet. simpl. rewrite length_app. simpl. lia.
Qed.

(** X17: when the first page and every page it leads to decode, and the
    last one has no [next] link, [GetWAFRuleStatuses] returns the statuses
    of all pages in the order of the pages together with a nil error, after
    one request per page. *)
Theorem X17_all_pages_collected (c c' : Client) (i : GetWAFRuleStatusesInput)
  (n : nat) (rules : list WAFRuleStatus) :
  Service i <> EmptyString ->
  WAF i <> EmptyString ->
  endsAfter (statusesFilters i) n c (statusesPath i) rules c' ->
  forall fuel : nat,
    (n <= fuel)%nat ->
    GetWAFRuleStatuses fuel c i
    = Some (c', {| Rules := rules; Response_Links := paginationInfo_zero |},
            Returns None)
    /\ length (sent c') = (length (sent c) + n)%nat.
Proof.
  intros Hs Hw Hwalk fuel Hfuel. unfold GetWAFRuleStatuses.
  destruct (String.eqb_spec (Service i) ""); [done|].
  destruct (String.eqb_spec (WAF i) ""); [done|].
  fold (statusesFilters i).
  by destruct (fetch_endsAfter _ _ _ _ _ _ Hwalk fuel
                 {| Rules := []; Response_Links := paginationInfo_zero |} Hfuel)
    as [-> Hlen].
Qed.

(** X18: an error on the first page is returned to the caller, with an
    empty list of rules. *)
Theorem X18_first_page_error_returned (c : Client) (i : GetWAFRuleStatusesInput)
  (err : error) :
  Service i <> EmptyString ->
  WAF i <> EmptyString ->
  pageFails c (statusesPath i) (statusesFilters i) err ->
  forall fuel : nat,
    (0 < fuel)%nat ->
    GetWAFRuleStatuses fuel c i
    = Some (afterGet c (statusesPath i) (statusesFilters i),
            {| Rules := []; Response_Links := paginationInfo_zero |},
            Returns (Some err)).
Proof.
  intros Hs Hw Hfail fuel Hfuel. unfold GetWAFRuleStatuses.
  destruct (String.eqb_spec (Service i) ""); [done|].
  destruct (String.eqb_spec (WAF i) ""); [done|].
  fold (statusesFilters i). destruct fuel as [|fuel]; [lia|].
  by rewrite (fetch_fails _ _ _ _ _ _ Hfail).
Qed.

(** X19: an element of another dynamic type stops the page with an error,
    and the statuses that precede it on the page are already in the
    answer: the caller gets both rules and a non-nil error. *)
Theorem X19_partial_answer_with_error (c : Client) (i : GetWAFRuleStatusesInput)
  (body : Body) (good rest : list iface) (v : iface) (rs : list WAFRuleStatus) :
  Service i <> EmptyString ->
  WAF i <> EmptyString ->
  transport c (sent c) (getRequest (statusesPath i) (statusesFilters i)) = inr body ->
  body_readAll body = None ->
  body_statuses body = inr (good ++ v :: rest) ->
  statusesOf good = Some rs ->
  (forall r, v <> IReceivedWAFRuleStatus r) ->
  forall fuel : nat,
    (0 < fuel)%nat ->
    GetWAFRuleStatuses fuel c i
    = Some (afterGet c (statusesPath i) (statusesFilters i),
            {| Rules := rs; Response_Links := paginationInfo_zero |},
            Returns (Some (Errorf "got back response of unexpected type"))).
Proof.
  intros Hs Hw Hb Hr Hd Hgood Hv fuel Hfuel. unfold GetWAFRuleStatuses.
  destruct (String.eqb_spec (Service i) ""); [done|].
  destruct (String.eqb_spec (WAF i) ""); [done|].
  fold (statusesFilters i). destruct fuel as [|fuel]; [lia|].
  rewrite (fetch_page _ _ _ _ _ _ _ Hb Hr Hd), (appendStatuses_app _ _ _ _ Hgood).
  simpl. destruct v as [sa | r | T]; [done | by destruct (Hv r) | done].
Qed.

(** X20: a rule status that lacks its [rule] or its [waf] relation makes
    the call panic with a nil dereference; no error is returned. *)
Theorem X20_missing_relation_panics (c : Client) (i : GetWAFRuleStatusesInput)
  (body : Body) (good rest : list iface) (r : receivedWAFRuleStatus)
  (rs : list WAFRuleStatus) :
  Service i <> EmptyString ->
  WAF i <> EmptyString ->
  transport c (sent c) (getRequest (statusesPath i) (statusesFilters i)) = inr body ->
  body_readAll body = None ->
  body_statuses body = inr (good ++ IReceivedWAFRuleStatus r :: rest) ->
  statusesOf good = Some rs ->
  received_rule r = None \/ received_waf r = None ->
  forall fuel : nat,
    (0 < fuel)%nat ->
    GetWAFRuleStatuses fuel c i
    = Some (afterGet c (statusesPath i) (statusesFilters i),
            {| Rules := rs; Response_Links := paginationInfo_zero |},
            Panics NilDereference).
Proof.
  intros Hs Hw Hb Hr Hd Hgood Hnil fuel Hfuel. unfold GetWAFRuleStatuses.
  destruct (String.eqb_spec (Service i) ""); [done|].
  destruct (String.eqb_spec (WAF i) ""); [done|].
  fold (statusesFilters i). destruct fuel as [|fuel]; [lia|].
  rewrite (fetch_page _ _ _ _ _ _ _ Hb Hr Hd), (appendStatuses_app _ _ _ _ Hgood).
  simpl. unfold simplify.
  destruct Hnil as [-> | Hwaf]; [done|].
  rewrite Hwaf. by destruct (received_rule r).
Qed.

(** What every run of the walk keeps, whatever the server answers. *)
Lemma fetch_keeps (filters : option RequestOptions) (fuel : nat) :
  forall (c c' : Client) (answer answer' : GetWAFRuleStatusesResponse)
         (path : string) (o : outcome (option error)),
    fetchWAFRuleStatusesPage fuel c answer path filters = Some (c', answer', o) ->
    (exists paths,
        sent c' = sent c ++ map (fun q => getRequest q filters) (path :: paths))
    /\ (exists more, Rules answer' = Rules answer ++ more)
    /\ Response_Links answer' = Response_Links answer.
Proof.
  induction fuel as [|fuel IH]; intros c c' answer answer' path o; [discriminate|].
  destruct (transport c (sent c) (getRequest path filters)) as [err|body] eqn:Hb.
  { unfold getRequest in Hb. simpl. rewrite Hb. intros [= <- <- <-].
    split; [by exists [] |]. split; [exists []; by rewrite app_nil_r | done]. }
  destruct (body_readAll body) as [err|] eqn:Hr.
  { unfold getRequest in Hb. simpl. rewrite Hb. unfold getPages. rewrite Hr.
    intros [= <- <- <-].
    split; [by exists [] |]. split; [exists []; by rewrite app_nil_r | done]. }
  destruct (body_statuses body) as [err|data] eqn:Hd.
  { unfold getRequest in Hb. simpl. rewrite Hb. unfold getPages. rewrite Hr, Hd.
    intros [= <- <- <-].
    split; [by exists [] |]. split; [exists []; by rewrite app_nil_r | done]. }
  rewrite (fetch_page _ _ _ _ _ _ _ Hb Hr Hd).
  destruct (appendStatuses_grows data (Rules answer)) as [more Hmore].
  destruct (appendStatuses data (Rules answer)) as [rules [[err|]|why]];
    simpl in Hmore; subst rules.
  - intros [= <- <- <-]. split; [by exists [] |]. split; [by exists more | done].
  - destruct (String.eqb (Next (body_links body)) "").
    + intros [= <- <- <-]. split; [by exists [] |]. split; [by exists more | done].
    + destruct (fetchWAFRuleStatusesPage fuel _ _ _ _) as [[[c2 a2] o2]|] eqn:Hrec;
        [|discriminate].
      apply IH in Hrec as ((paths & Hsent) & (more' & Hrules) & Hlinks).
      simpl in *.
      intros Heq.
      assert (c' = c2 /\ answer' = a2) as [-> ->] by (destruct o2; by simplify_eq).
      split; [|split].
      * exists (Next (body_links body) :: paths). rewrite Hsent.
        unfold afterGet. simpl. by rewrite <- app_assoc.
      * exists (more ++ more'). by rewrite Hrules, app_assoc.
      * done.
  - intros [= <- <- <-]. split; [by exists [] |]. split; [by exists more | done].
Qed.

(** X21: every request of [GetWAFRuleStatuses] is a GET that carries the
    caller's filters: the first goes to the rule-status path of the
    firewall, the following ones to the [next] links, all with the
    parameters [formatFilters] made.  With an empty service or firewall ID
    nothing is sent, and the service is checked first. *)
Theorem X21_every_request_carries_filters (fuel : nat) (c c' : Client)
  (i : GetWAFRuleStatusesInput) (answer : GetWAFRuleStatusesResponse)
  (o : outcome (option error)) :
  GetWAFRuleStatuses fuel c i = Some (c', answer, o) ->
  (Service i = EmptyString ->
   c' = c /\ o = Returns (Some ErrMissingService))
  /\ (Service i <> EmptyString -> WAF i = EmptyString ->
      c' = c /\ o = Returns (Some ErrMissingWAFID))
  /\ (Service i <> EmptyString -> WAF i <> EmptyString ->
      exists links,
        sent c' = sent c
                  ++ map (fun q => getRequest q (statusesFilters i))
                       (statusesPath i :: links)).
Proof.
  unfold GetWAFRuleStatuses. intros Hrun.
  destruct (String.eqb_spec (Service i) "") as [Hs|Hs].
  { simplify_eq. by repeat split. }
  destruct (String.eqb_spec (WAF i) "") as [Hw|Hw].
  { simplify_eq. by repeat split. }
  split; [done|]. split; [done|]. intros _ _.
  fold (statusesFilters i) in Hrun.
  by destruct (fetch_keeps _ _ _ _ _ _ _ _ Hrun) as (Hsent & _).
Qed.

(** X22: the walk only ever appends to the rules it was given, and it
    never writes the [Links] field: the response of [GetWAFRuleStatuses]
    has it at its zero value, however many pages were read. *)
Theorem X22_rules_grow_links_untouched (fuel : nat) (c c' : Client)
  (i : GetWAFRuleStatusesInput) (answer answer' : GetWAFRuleStatusesResponse)
  (path : string) (filters : option RequestOptions) (o : outcome (option error)) :
  (fetchWAFRuleStatusesPage fuel c answer path filters = Some (c', answer', o) ->
   (exists more, Rules answer' = Rules answer ++ more)
   /\ Response_Links answer' = Response_Links answer)
  /\ (GetWAFRuleStatuses fuel c i = Some (c', answer', o) ->
      Response_Links answer' = paginationInfo_zero).
Proof.
  split.
  - intros Hrun. by destruct (fetch_keeps _ _ _ _ _ _ _ _ Hrun) as (_ & Hrules & Hlinks).
  - unfold GetWAFRuleStatuses. intros Hrun.
    destruct (String.eqb (Service i) ""); [by simplify_eq|].
    destruct (String.eqb (WAF i) ""); [by simplify_eq|].
    by destruct (fetch_keeps _ _ _ _ _ _ _ _ Hrun) as (_ & _ & Hlinks).
Qed.

(** X23: nothing bounds the walk.  Against a server whose every page
    links to a next one, no number of steps makes
    [fetchWAFRuleStatusesPage] return. *)
Theorem X23_walk_unbounded (c : Client) (filters : option RequestOptions) :
  alwaysLinksOn (transport c) ->
  forall (fuel : nat) (answer : GetWAFRuleStatusesResponse) (path : string),
    fetchWAFRuleStatusesPage fuel c answer path filters = None.
Proof.
  intros Hloop fuel. revert c Hloop.
  induction fuel as [|fuel IH]; intros c Hloop answer path; [reflexivity|].
  destruct (Hloop (sent c) (getRequest path filters))
    as (body & data & rs & Hb & Hr & Hd & Hs & Hn).
  rewrite (fetch_page _ _ _ _ _ _ _ Hb Hr Hd), (appendStatuses_all _ _ _ Hs).
  destruct (String.eqb_spec (Next (body_links body)) ""); [done|].
  by rewrite IH.
Qed.

(** ** One firewall object *)

Section FirewallFacts.

Context `{Collaborators} `{WAFCollaborators}.

(** X24: [GetWAF] sends a request exactly when the service ID is not
    empty, the version is not 0 and the firewall ID is not empty; the
    first check that fails, in this order, names the error.  Only 0 counts
    as a missing version: a negative one is sent, sign included, in the
    path [/service/S/version/V/wafs/ID]. *)
Theorem X24_GetWAF_request (c : Client) (i : GetWAFInput) :
  let r := GetWAF c i in
  (sent (fst r) = sent c
   <-> GetWAF_Service i = EmptyString \/ GetWAF_Version i = 0
       \/ GetWAF_ID i = EmptyString)
  /\ (GetWAF_Service i = EmptyString -> r = (c, (None, Some ErrMissingService)))
  /\ (GetWAF_Service i <> EmptyString -> GetWAF_Version i = 0 ->
      r = (c, (None, Some ErrMissingVersion)))
  /\ (GetWAF_Service i <> EmptyString -> GetWAF_Version i <> 0 ->
      GetWAF_ID i = EmptyString ->
      r = (c, (None, Some ErrMissingWAFID)))
  /\ (GetWAF_Service i <> EmptyString -> GetWAF_Version i <> 0 ->
      GetWAF_ID i <> EmptyString ->
      sent (fst r)
      = sent c ++ [ {| req_path := wafPath (GetWAF_Service i) (GetWAF_Version i)
                                     (GetWAF_ID i);
                       req_options := None |} ]).
Proof.
  cbv zeta. unfold GetWAF.
  destruct (String.eqb_spec (GetWAF_Service i) "") as [Hs|Hs].
  { repeat split; try done. by left. }
  destruct (Z.eqb_spec (GetWAF_Version i) 0) as [Hv|Hv].
  { repeat split; try done. by right; left. }
  destruct (String.eqb_spec (GetWAF_ID i) "") as [Hi|Hi].
  { repeat split; try done. by right; right. }
  assert (Hsent : sent (fst (decodeWAF (Client_Get c
                    (wafPath (GetWAF_Service i) (GetWAF_Version i) (GetWAF_ID i)) None)))
                  = sent c ++ [ {| req_path := wafPath (GetWAF_Service i)
                                                 (GetWAF_Version i) (GetWAF_ID i);
                                   req_options := None |} ]).
  { unfold decodeWAF, Client_Get. repeat (case_match; simplify_eq /=; try done). }
  split; [|by repeat split].
  rewrite Hsent. split; [|by intros [?|[?|?]]].
  intros Heq. apply (f_equal length) in Heq. rewrite length_app in Heq.
  simpl in Heq. lia.
Qed.

(** X25: [GetWAF], [UpdateWAF] and [DeleteWAF] reject the same
    identifiers with the same error, and none of them touches the network
    when it does. *)
Theorem X25_firewall_calls_agree (c : Client) (service id : string) (version : Z)
  (prefetch response : string) :
  service = EmptyString \/ version = 0 \/ id = EmptyString ->
  let get := GetWAF c {| GetWAF_Service := service; GetWAF_Version := version;
                         GetWAF_ID := id |} in
  let update := UpdateWAF c {| UpdateWAF_Service := service;
                               UpdateWAF_Version := version; UpdateWAF_ID := id;
                               UpdateWAF_PrefetchCondition := prefetch;
                               UpdateWAF_Response := response |} in
  let delete := DeleteWAF c {| DeleteWAF_Service := service;
                               DeleteWAF_Version := version; DeleteWAF_ID := id |} in
  fst get = c /\ fst update = c /\ fst delete = c
  /\ is_Some (snd (snd get))
  /\ snd (snd update) = snd (snd get)
  /\ snd delete = snd (snd get).
Proof.
  intros Hbad. cbv zeta. unfold GetWAF, UpdateWAF, DeleteWAF. simpl.
  destruct (String.eqb_spec service ""); [by repeat split; eauto|].
  destruct (Z.eqb_spec version 0); [by repeat split; eauto|].
  destruct (String.eqb_spec id ""); [by repeat split; eauto|].
  by destruct Hbad as [?|[?|?]].
Qed.

End FirewallFacts.

(** ** The further properties on concrete runs *)

Lemma X1_pages_in_order_witness :
  let p0 := NewListServiceAuthorizationsPaginator (Some fromStart) in
  let r1 := GetNext (H := PlainURL.net_url) threePages p0 in
  let r2 := GetNext (H := PlainURL.net_url) (clientAfter r1) (paginatorAfter r1) in
  let r3 := GetNext (H := PlainURL.net_url) (clientAfter r2) (paginatorAfter r2) in
  sent (clientAfter r3)
  = sent threePages
    ++ map (fun k => pageRequestAt fromStart (firstPage fromStart + Z.of_nat k)) (seq 0 3)
  /\ ((0 < 3)%nat -> CurrentPage (paginatorAfter r3) = firstPage fromStart + Z.of_nat 3 - 1).
Proof.
  intros p0 r1 r2 r3.
  apply (X1_pages_in_order (H := PlainURL.net_url) 3 threePages
           (clientAfter r3) (paginatorAfter r3) fromStart).
  - apply (succeeds_next (H := PlainURL.net_url) 2 threePages p0 _ _ []);
      [vm_compute; reflexivity|].
    apply (succeeds_next (H := PlainURL.net_url) 1 (clientAfter r1) (paginatorAfter r1) _ _ []);
      [vm_compute; reflexivity|].
    apply (succeeds_next (H := PlainURL.net_url) 0 (clientAfter r2) (paginatorAfter r2) _ _ []);
      [vm_compute; reflexivity|].
    apply succeeds_none.
  - vm_compute. discriminate.
Defined.

Lemma X2_failed_page_skipped_witness :
  let r := GetNext (H := PlainURL.net_url) (scripted [unreachable]) resumed in
  emittedParam "page[number]" (clientAfter r) = Some (strconv.Itoa (2 + 1))
  /\ CurrentPage (paginatorAfter r) = 2 + 1
  /\ emittedParam "page[number]"
       (clientAfter (GetNext (H := PlainURL.net_url) (clientAfter r) (paginatorAfter r)))
     = Some (strconv.Itoa (2 + 2)).
Proof.
  intros r.
  apply (X2_failed_page_skipped (H := PlainURL.net_url) (scripted [unreachable])
           resumed fromStart [] (CollaboratorError "connection refused")).
  - reflexivity.
  - reflexivity.
  - vm_compute. discriminate.
  - vm_compute. discriminate.
  - vm_compute. reflexivity.
Defined.

Lemma X3_error_leaves_cursor_witness :
  let p0 := NewListServiceAuthorizationsPaginator (Some fromStart) in
  let r := GetNext (H := PlainURL.net_url) (scripted [unreachable]) p0 in
  length (sent (clientAfter r)) = 1%nat
  /\ consumed (paginatorAfter r) = false
  /\ LastPage (paginatorAfter r) = 0.
Proof.
  intros p0 r.
  destruct (X3_error_leaves_cursor (H := PlainURL.net_url) (scripted [unreachable])
              p0 fromStart [] (CollaboratorError "connection refused")
              eq_refl ltac:(vm_compute; reflexivity))
    as (Hlen & _ & Hc & _ & Hl & _).
  split; [exact Hlen | split; [exact Hc | exact Hl]].
Defined.

Lemma X4_no_links_witness :
  let p0 := NewListServiceAuthorizationsPaginator (Some fromStart) in
  let r := GetNext (H := PlainURL.net_url) singlePage p0 in
  resultOf r = Returns ([], None) /\ HasNext (paginatorAfter r) = false.
Proof.
  intros p0 r.
  destruct (X4_no_links (H := PlainURL.net_url) singlePage p0 fromStart
              {| Links := {| First := ""; Last := ""; Next := "" |} |} []
              eq_refl) as (Hres & _ & _ & Hnext).
  - exists (authorizationsBody "" ""), [].
    split; [|split; [|split]]; reflexivity.
  - reflexivity.
  - reflexivity.
  - split; [exact Hres | apply Hnext; reflexivity].
Defined.

Lemma X5_stops_only_on_last_witness :
  HasNext beyondLast = true /\ Remaining beyondLast < 0.
Proof.
  apply (proj2 (proj2 (X5_stops_only_on_last beyondLast
                         ltac:(vm_compute; split; discriminate)
                         ltac:(vm_compute; split; discriminate)))).
  - reflexivity.
  - reflexivity.
  - reflexivity.
Defined.

Lemma X7_link_numbers_stored_witness :
  let p0 := NewListServiceAuthorizationsPaginator (Some fromStart) in
  let r := GetNext (H := PlainURL.net_url) threePages p0 in
  resultOf r = Returns ([], None)
  /\ NextPage (paginatorAfter r) = 2
  /\ LastPage (paginatorAfter r) = 3.
Proof.
  intros p0 r.
  apply (X7_link_numbers_stored (H := PlainURL.net_url) threePages p0 fromStart
           {| Links := {| First := ""; Last := page "3"; Next := page "2" |} |} [] 2 3).
  - reflexivity.
  - exists (authorizationsBody (page "2") (page "3")), [].
    split; [|split; [|split]]; reflexivity.
  - split; [discriminate|].
    exists "page[number]=2&page[size]=1"%string, [].
    split; vm_compute; reflexivity.
  - split; [discriminate|].
    exists "page[number]=3&page[size]=1"%string, [].
    split; vm_compute; reflexivity.
  - vm_compute. split; discriminate.
  - vm_compute. split; discriminate.
Defined.

Lemma X8_overflowing_page_clamped_witness :
  let p0 := NewListServiceAuthorizationsPaginator (Some fromStart) in
  let r := GetNext (H := PlainURL.net_url) hugeLastPage p0 in
  resultOf r = Returns ([], None)
  /\ (LastPage (paginatorAfter r) = GoInt.maxInt
      \/ LastPage (paginatorAfter r) = GoInt.minInt).
Proof.
  intros p0 r.
  apply (X8_overflowing_page_clamped (H := PlainURL.net_url) hugeLastPage p0 fromStart
           {| Links := {| First := ""; Last := page "99999999999999999999"; Next := "" |} |}
           [] "99999999999999999999"%string).
  - reflexivity.
  - exists (authorizationsBody "" (page "99999999999999999999")), [].
    split; [|split; [|split]]; reflexivity.
  - left. reflexivity.
  - split; [discriminate|].
    exists "page[number]=99999999999999999999&page[size]=1"%string, [].
    split; vm_compute; reflexivity.
  - vm_compute. reflexivity.
Defined.

Lemma X9_assertAuthorizations_witness :
  assertAuthorizations
    [IServiceAuthorization someAuthorization; IOther "*fastly.WAF";
     IReceivedWAFRuleStatus danglingStatus]
  = inl (Errorf "unexpected response type: *fastly.WAF").
Proof.
  apply (proj2 (X9_assertAuthorizations _) [someAuthorization] (IOther "*fastly.WAF")
           [IReceivedWAFRuleStatus danglingStatus]).
  - reflexivity.
  - discriminate.
Defined.

Lemma X10_list_sends_no_parameters_witness :
  snd (ListServiceAuthorizations threePages (Some fromPage5)) = ([], None)
  /\ emittedParam "page[number]" (fst (ListServiceAuthorizations threePages (Some fromPage5)))
     = None.
Proof.
  destruct (X10_list_sends_no_parameters threePages (Some fromPage5))
    as (_ & Hkey & Hok & _).
  split.
  - apply (Hok (authorizationsBody (page "2") (page "3")) []); reflexivity.
  - apply Hkey.
Defined.

Lemma X11_rejected_input_sends_nothing_witness :
  GetServiceAuthorization (H := likeGet) threePages {| Get_ID := "" |}
  = (threePages, (None, Some (Errorf "Missing ID")))
  /\ DeleteServiceAuthorization (H := likeGet) threePages {| Delete_ID := "" |}
     = (threePages, Some (Errorf "Missing ID")).
Proof.
  destruct (X11_rejected_input_sends_nothing (H := likeGet) threePages)
    as (Hget & Hdelete & _).
  split; [apply Hget | apply Hdelete]; reflexivity.
Defined.

Lemma X12_create_checks_service_first_witness :
  snd (snd (CreateServiceAuthorization (H := likeGet) threePages
              {| Create_ID := ""; Create_Permission := "";
                 Create_Service := Some {| SAService_ID := "" |};
                 Create_User := Some {| SAUser_ID := "" |} |}))
  = Some (Errorf "Missing Service")
  /\ snd (snd (CreateServiceAuthorization (H := likeGet) threePages
                 {| Create_ID := ""; Create_Permission := "";
                    Create_Service := Some {| SAService_ID := "my-service-id" |};
                    Create_User := Some {| SAUser_ID := "" |} |}))
     = Some (Errorf "Missing User").
Proof.
  split.
  - apply (proj1 (X12_create_checks_service_first (H := likeGet) threePages _)).
    reflexivity.
  - apply (proj1 (proj2 (X12_create_checks_service_first (H := likeGet) threePages _)));
      reflexivity.
Defined.

Lemma X13_update_checks_id_first_witness :
  snd (snd (UpdateServiceAuthorization (H := likeGet) threePages
              {| Update_ID := ""; Update_Permissions := "" |}))
  = Some (Errorf "Missing ID")
  /\ snd (snd (UpdateServiceAuthorization (H := likeGet) threePages
                 {| Update_ID := "my-service-authorization-id";
                    Update_Permissions := "" |}))
     = Some (Errorf "Missing Permissions").
Proof.
  split.
  - apply (proj1 (X13_update_checks_id_first (H := likeGet) threePages _)).
    reflexivity.
  - apply (proj1 (proj2 (X13_update_checks_id_first (H := likeGet) threePages _)));
      [discriminate | reflexivity].
Defined.

Lemma X14_get_and_delete_witness :
  sent (fst (GetServiceAuthorization (H := likeGet) threePages
               {| Get_ID := "3krg2uUGZzb2W9Euo4moOY" |}))
  = sent threePages
    ++ [ {| req_path := "/service-authorizations/" +:+ "3krg2uUGZzb2W9Euo4moOY";
            req_options := None |} ].
Proof.
  apply (proj1 (X14_get_and_delete (H := likeGet) threePages "3krg2uUGZzb2W9Euo4moOY"
                  ltac:(discriminate))).
Defined.

Lemma X16_formatFilters_keys_witness : formatFilters statusesInput = ∅.
Proof.
  apply (proj2 (proj2 (X16_formatFilters_keys statusesInput))). reflexivity.
Defined.

Lemma X17_all_pages_collected_witness :
  exists c',
    GetWAFRuleStatuses 2 twoStatusPages statusesInput
    = Some (c',
            {| Rules := [ {| RuleID := 1; WAFID := "waf"; StatusID := "a"; Status := "log" |} ]
                        ++ [ {| RuleID := 2; WAFID := "waf"; StatusID := "b"; Status := "log" |} ];
               Response_Links := paginationInfo_zero |},
            Returns None)
    /\ length (sent c') = (length (sent twoStatusPages) + 2)%nat.
Proof.
  eexists.
  apply (X17_all_pages_collected twoStatusPages _ statusesInput 2).
  - discriminate.
  - discriminate.
  - eapply endsAfter_more.
    + eexists _, _. split; [|split; [|split; [|split]]]; reflexivity.
    + discriminate.
    + apply endsAfter_last.
      eexists _, _. split; [|split; [|split; [|split]]]; reflexivity.
  - lia.
Defined.

Lemma X18_first_page_error_returned_witness :
  GetWAFRuleStatuses 1 (scripted [unreachable]) statusesInput
  = Some (afterGet (scripted [unreachable]) (statusesPath statusesInput)
            (statusesFilters statusesInput),
          {| Rules := []; Response_Links := paginationInfo_zero |},
          Returns (Some (CollaboratorError "connection refused"))).
Proof.
  apply (X18_first_page_error_returned (scripted [unreachable]) statusesInput).
  - discriminate.
  - discriminate.
  - apply fails_transport. reflexivity.
  - lia.
Defined.

Lemma X19_partial_answer_with_error_witness :
  GetWAFRuleStatuses 1 mixedStatuses statusesInput
  = Some (afterGet mixedStatuses (statusesPath statusesInput)
            (statusesFilters statusesInput),
          {| Rules := [ {| RuleID := 1; WAFID := "waf"; StatusID := "a"; Status := "log" |} ];
             Response_Links := paginationInfo_zero |},
          Returns (Some (Errorf "got back response of unexpected type"))).
Proof.
  apply (X19_partial_answer_with_error mixedStatuses statusesInput
           (statusesBody [ruleStatus "a" 1; IOther "*fastly.WAF"; ruleStatus "b" 2] "")
           [ruleStatus "a" 1] [ruleStatus "b" 2] (IOther "*fastly.WAF")).
  - discriminate.
  - discriminate.
  - reflexivity.
  - reflexivity.
  - reflexivity.
  - reflexivity.
  - discriminate.
  - lia.
Defined.

Lemma X20_missing_relation_panics_witness :
  GetWAFRuleStatuses 1 brokenStatuses statusesInput
  = Some (afterGet brokenStatuses (statusesPath statusesInput)
            (statusesFilters statusesInput),
          {| Rules := [ {| RuleID := 1; WAFID := "waf"; StatusID := "a"; Status := "log" |} ];
             Response_Links := paginationInfo_zero |},
          Panics NilDereference).
Proof.
  apply (X20_missing_relation_panics brokenStatuses statusesInput
           (statusesBody [ruleStatus "a" 1; IReceivedWAFRuleStatus danglingStatus] "")
           [ruleStatus "a" 1] [] danglingStatus).
  - discriminate.
  - discriminate.
  - reflexivity.
  - reflexivity.
  - reflexivity.
  - reflexivity.
  - left. reflexivity.
  - lia.
Defined.

Lemma X21_every_request_carries_filters_witness :
  exists c' answer links,
    GetWAFRuleStatuses 3 droppingStatuses statusesInput = Some (c', answer, Returns None)
    /\ sent c' = sent droppingStatuses
                 ++ map (fun q => getRequest q (statusesFilters statusesInput))
                      (statusesPath statusesInput :: links).
Proof.
  destruct (GetWAFRuleStatuses 3 droppingStatuses statusesInput)
    as [[[c' answer] o]|] eqn:Hrun; [|vm_compute in Hrun; discriminate].
  assert (Ho : o = Returns None) by (vm_compute in Hrun; by simplify_eq).
  subst o.
  destruct (proj2 (proj2 (X21_every_request_carries_filters 3 droppingStatuses c'
                            statusesInput answer (Returns None) Hrun))
              ltac:(discriminate) ltac:(discriminate)) as [links Hsent].
  by exists c', answer, links.
Defined.

Lemma X22_rules_grow_links_untouched_witness :
  exists c' answer,
    GetWAFRuleStatuses 3 droppingStatuses statusesInput = Some (c', answer, Returns None)
    /\ Response_Links answer = paginationInfo_zero.
Proof.
  destruct (GetWAFRuleStatuses 3 droppingStatuses statusesInput)
    as [[[c' answer] o]|] eqn:Hrun; [|vm_compute in Hrun; discriminate].
  assert (Ho : o = Returns None) by (vm_compute in Hrun; by simplify_eq).
  subst o. exists c', answer. split; [reflexivity|].
  apply (proj2 (X22_rules_grow_links_untouched 3 droppingStatuses c' statusesInput
                  answer answer "" None (Returns None)) Hrun).
Defined.

Lemma X23_walk_unbounded_witness :
  fetchWAFRuleStatusesPage 1000 looping
    {| Rules := []; Response_Links := paginationInfo_zero |}
    (statusesPath statusesInput) (statusesFilters statusesInput)
  = None.
Proof.
  apply (X23_walk_unbounded looping).
  intros before r.
  exists (statusesBody [ruleStatus "a" 1] "/service/svc/wafs/waf/rule_statuses"),
    [ruleStatus "a" 1],
    [ {| RuleID := 1; WAFID := "waf"; StatusID := "a"; Status := "log" |} ].
  split; [|split; [|split; [|split]]]; try reflexivity. discriminate.
Defined.

Lemma X24_GetWAF_request_witness :
  sent (fst (@GetWAF someFirewall threePages
               {| GetWAF_Service := "svc"; GetWAF_Version := -1; GetWAF_ID := "waf" |}))
  = sent threePages ++ [ {| req_path := wafPath "svc" (-1) "waf"; req_options := None |} ]
  /\ wafPath "svc" (-1) "waf" = "/service/svc/version/-1/wafs/waf"%string.
Proof.
  split; [|reflexivity].
  apply (proj2 (proj2 (proj2 (proj2
           (@X24_GetWAF_request someFirewall threePages
              {| GetWAF_Service := "svc"; GetWAF_Version := -1; GetWAF_ID := "waf" |})))));
    discriminate.
Defined.

Lemma X25_firewall_calls_agree_witness :
  snd (@DeleteWAF likeGet someFirewall threePages
         {| DeleteWAF_Service := "svc"; DeleteWAF_Version := 0; DeleteWAF_ID := "" |})
  = snd (snd (@GetWAF someFirewall threePages
                {| GetWAF_Service := "svc"; GetWAF_Version := 0; GetWAF_ID := "" |})).
Proof.
  apply (@X25_firewall_calls_agree likeGet someFirewall threePages
           "svc" "" 0 "" "").
  right. left. reflexivity.
Defined.
